(** * CasualNotes: the infographic normalization and fallback pipeline

    A shallow embedding of [src/app.py]: the text cleaner [safe_clean], the
    schema normalizer [convert_to_professional_schema], the heuristic
    generator [fallback_from_text] and the orchestrator [generate], followed
    by the properties the specification states about them.

    Conventions of the embedding.
    - A Python [str] is a [string]; the character model is ASCII: the
      whitespace test and the case mappings are those of Python on code
      points below 128, and a byte above 127 is an uncased, non-space
      character.
    - A JSON-shaped Python value is a [pyval]; a [dict] is an association
      list in insertion order, read by its first binding of a key.
    - A Python operation that may raise returns a [result]; the orchestrator,
      which also calls the remote model and writes the diagnostic log, runs
      in the monad [M] that pairs a [result] with the trace of those effects.
    - [json.loads], the remote client and the prompt text are not code of
      this repository: they are parameters of the orchestrator. *)

From Stdlib Require Import String Ascii List ZArith Bool Lia PrimFloat.
Import ListNotations.
Local Open Scope string_scope.

(* ================================================================== *)
(** ** Python string operations *)
(* ================================================================== *)

Module PyStr.

(** [str.isspace] on ASCII: TAB, LF, VT, FF, CR, the separators FS, GS, RS,
    US, and the space. The regular expression class [\s] of a [str] pattern
    is the same set. *)
Definition isspace (c : ascii) : bool :=
  let n := nat_of_ascii c in
  ((9 <=? n)%nat && (n <=? 13)%nat) || ((28 <=? n)%nat && (n <=? 32)%nat).

Definition is_upper (c : ascii) : bool :=
  let n := nat_of_ascii c in (65 <=? n)%nat && (n <=? 90)%nat.

Definition is_lower (c : ascii) : bool :=
  let n := nat_of_ascii c in (97 <=? n)%nat && (n <=? 122)%nat.

Definition lower_char (c : ascii) : ascii :=
  if is_upper c then ascii_of_nat (nat_of_ascii c + 32) else c.

Definition upper_char (c : ascii) : ascii :=
  if is_lower c then ascii_of_nat (nat_of_ascii c - 32) else c.

Fixpoint map_chars (f : ascii -> ascii) (s : string) : string :=
  match s with
  | EmptyString => EmptyString
  | String c r => String (f c) (map_chars f r)
  end.

(** [s.lower()] and [s.upper()]. *)
Definition lower : string -> string := map_chars lower_char.
Definition upper : string -> string := map_chars upper_char.

(** [s.lstrip()], [s.rstrip()], [s.strip()]. *)
Fixpoint lstrip (s : string) : string :=
  match s with
  | EmptyString => EmptyString
  | String c r => if isspace c then lstrip r else s
  end.

Fixpoint rstrip (s : string) : string :=
  match s with
  | EmptyString => EmptyString
  | String c r =>
      match rstrip r with
      | EmptyString => if isspace c then EmptyString else String c EmptyString
      | r' => String c r'
      end
  end.

Definition strip (s : string) : string := rstrip (lstrip s).

(** Truth value of a [str]: non-empty. *)
Definition nonempty (s : string) : bool :=
  match s with EmptyString => false | String _ _ => true end.

(** [s[:n]]. *)
Fixpoint take (n : nat) (s : string) : string :=
  match n, s with
  | S k, String c r => String c (take k r)
  | _, _ => EmptyString
  end.

Fixpoint drop (n : nat) (s : string) : string :=
  match n, s with
  | S k, String _ r => drop k r
  | _, _ => s
  end.

(** [s[a:b]] for indices [0 <= a] and [0 <= b] (the only ones the program
    forms): the characters at positions [a], ..., [b-1], none when [b <= a]. *)
Definition slice (a b : Z) (s : string) : string :=
  take (Z.to_nat (b - a)) (drop (Z.to_nat a) s).

Fixpoint startswith (p s : string) : bool :=
  match p, s with
  | EmptyString, _ => true
  | String a p', String b s' => Ascii.eqb a b && startswith p' s'
  | String _ _, EmptyString => false
  end.

(** [sub in s]: [sub] occurs in [s] as a contiguous substring. *)
Fixpoint contains (sub s : string) : bool :=
  startswith sub s ||
  match s with
  | EmptyString => false
  | String _ r => contains sub r
  end.

(** [s.find(c)] for a one-character [c]: the least index, or [-1]. *)
Fixpoint find (c : ascii) (s : string) : Z :=
  match s with
  | EmptyString => (-1)%Z
  | String a r =>
      if Ascii.eqb a c then 0%Z
      else let i := find c r in if (i =? -1)%Z then (-1)%Z else (i + 1)%Z
  end.

(** [s.rfind(c)]: the greatest index, or [-1]. *)
Fixpoint rfind (c : ascii) (s : string) : Z :=
  match s with
  | EmptyString => (-1)%Z
  | String a r =>
      let i := rfind c r in
      if (i =? -1)%Z then (if Ascii.eqb a c then 0%Z else (-1)%Z)
      else (i + 1)%Z
  end.

(** The characters of a [str], as iteration yields them. *)
Fixpoint chars (s : string) : list string :=
  match s with
  | EmptyString => []
  | String c r => String c EmptyString :: chars r
  end.

End PyStr.

(** The double quote and the line feed, which string literals here do not
    spell inline. *)
Definition dq : string := String (ascii_of_nat 34) EmptyString.
Definition nl : string := String (ascii_of_nat 10) EmptyString.

(* ================================================================== *)
(** ** Text Cleaner: [safe_clean] *)
(* ================================================================== *)

Definition is_tick (c : ascii) : bool := Ascii.eqb c "`"%char.

(** The tag [json] under [re.IGNORECASE]. *)
Definition is_json (c1 c2 c3 c4 : ascii) : bool :=
  Ascii.eqb (PyStr.lower_char c1) "j"%char &&
  Ascii.eqb (PyStr.lower_char c2) "s"%char &&
  Ascii.eqb (PyStr.lower_char c3) "o"%char &&
  Ascii.eqb (PyStr.lower_char c4) "n"%char.

(** [re.sub(r"```(?:json)?", "", raw, flags=re.IGNORECASE)]: scanning from
    the left, every three backticks are dropped together with a directly
    following [json] (the optional group is greedy); matches do not
    overlap. *)
Fixpoint sub_fence (s : string) : string :=
  match s with
  | EmptyString => EmptyString
  | String c r =>
      match r with
      | String c2 (String c3 r3) =>
          if is_tick c && is_tick c2 && is_tick c3 then
            match r3 with
            | String j (String s' (String o (String n r7))) =>
                if is_json j s' o n then sub_fence r7 else sub_fence r3
            | _ => sub_fence r3
            end
          else String c (sub_fence r)
      | _ => String c (sub_fence r)
      end
  end.

(** [cleaned.replace("```", "")]. *)
Fixpoint replace_fence (s : string) : string :=
  match s with
  | EmptyString => EmptyString
  | String c r =>
      match r with
      | String c2 (String c3 r3) =>
          if is_tick c && is_tick c2 && is_tick c3 then replace_fence r3
          else String c (replace_fence r)
      | _ => String c (replace_fence r)
      end
  end.

(** The first two statements of [safe_clean]: the text that remains once
    the fences are gone, trimmed. *)
Definition strip_fences (raw : string) : string :=
  PyStr.strip (replace_fence (sub_fence raw)).

Definition safe_clean (raw : string) : string :=
  let cleaned := strip_fences raw in
  let first := PyStr.find "{"%char cleaned in
  let last := PyStr.rfind "}"%char cleaned in
  if negb (first =? -1)%Z && negb (last =? -1)%Z
  then PyStr.slice first (last + 1) cleaned
  else cleaned.

(* ================================================================== *)
(** ** Python values and the operations that may raise *)
(* ================================================================== *)

Inductive exn : Type :=
| JSONDecodeError
| ValueError
| TypeError
| AttributeError
| OtherError (name : string).

Inductive result (A : Type) : Type :=
| Ok (a : A)
| Raise (e : exn).

Arguments Ok {A} a.
Arguments Raise {A} e.

Definition bind {A B : Type} (m : result A) (k : A -> result B) : result B :=
  match m with
  | Ok a => k a
  | Raise e => Raise e
  end.

Notation "'let*' x ':=' m 'in' k" := (bind m (fun x => k))
  (at level 10, x name, m at level 100, k at level 200).
Notation "'let*' ' p ':=' m 'in' k" := (bind m (fun p => k))
  (at level 10, p pattern, m at level 100, k at level 200).

(** What [json.loads] and [request.get_json] produce. *)
#[warnings="-register-all"]
Inductive pyval : Type :=
| PNone
| PBool (b : bool)
| PInt (z : Z)
| PFloat (f : float)
| PStr (s : string)
| PList (l : list pyval)
| PDict (d : list (string * pyval)).

Definition dict : Type := list (string * pyval).

Fixpoint dict_get (k : string) (d : dict) : option pyval :=
  match d with
  | [] => None
  | (k', v) :: r => if String.eqb k' k then Some v else dict_get k r
  end.

Definition has_key (k : string) (d : dict) : bool :=
  match dict_get k d with Some _ => true | None => false end.

(** [bool(v)]. *)
Definition truthy (v : pyval) : bool :=
  match v with
  | PNone => false
  | PBool b => b
  | PInt z => negb (z =? 0)%Z
  | PFloat f => negb (PrimFloat.eqb f 0%float)
  | PStr s => PyStr.nonempty s
  | PList l => match l with [] => false | _ :: _ => true end
  | PDict d => match d with [] => false | _ :: _ => true end
  end.

(** [v == s] for a [str] [s]. *)
Definition py_eq_str (v : pyval) (s : string) : bool :=
  match v with
  | PStr t => String.eqb t s
  | _ => false
  end.

(** [k in v] for a [str] [k]: key of a dict, element of a list, substring
    of a str; any other operand is not a container. *)
Definition py_in (k : string) (v : pyval) : result bool :=
  match v with
  | PDict d => Ok (has_key k d)
  | PList l => Ok (existsb (fun x => py_eq_str x k) l)
  | PStr s => Ok (PyStr.contains k s)
  | _ => Raise TypeError
  end.

(** [v.get(k, default)]: only a dict has the method. *)
Definition py_get (v : pyval) (k : string) (default : pyval) : result pyval :=
  match v with
  | PDict d => Ok (match dict_get k d with Some x => x | None => default end)
  | _ => Raise AttributeError
  end.

(** [for x in v]: the elements of a list, the keys of a dict, the
    characters of a str. [len(v)] is the number of items for each of them. *)
Definition py_iter (v : pyval) : result (list pyval) :=
  match v with
  | PList l => Ok l
  | PDict d => Ok (map (fun kv => PStr (fst kv)) d)
  | PStr s => Ok (map PStr (PyStr.chars s))
  | _ => Raise TypeError
  end.

(** [any(f(x) for x in l)]: stops at the first true, and at the first
    raise. *)
Fixpoint py_any {A : Type} (f : A -> result bool) (l : list A) : result bool :=
  match l with
  | [] => Ok false
  | x :: r => let* b := f x in if b then Ok true else py_any f r
  end.

(** [[f(i, x) for i, x in enumerate(l, i0)]]. *)
Fixpoint map_enum {A B : Type} (f : nat -> A -> result B) (i0 : nat) (l : list A)
  : result (list B) :=
  match l with
  | [] => Ok []
  | x :: r => let* y := f i0 x in let* ys := map_enum f (S i0) r in Ok (y :: ys)
  end.

(* ================================================================== *)
(** ** Schema Normalizer: [convert_to_professional_schema] *)
(* ================================================================== *)

(** The test of the first [if]: ["visual_flow" in parsed_data or
    (parsed_data.get("sections") and any("role" in section for section in
    parsed_data["sections"]))], with the short-circuits of [or] and [and]. *)
Definition already_professional (parsed_data : pyval) : result bool :=
  let* b := py_in "visual_flow" parsed_data in
  if b then Ok true
  else
    let* secs := py_get parsed_data "sections" PNone in
    if negb (truthy secs) then Ok false
    else
      let* items := py_iter secs in
      py_any (py_in "role") items.

(** Lines 120-131: the layout and flow chosen from the old section types. *)
Definition infer_layout (section_types : list pyval) (n : nat)
  : result (string * string) :=
  if existsb (fun t => py_eq_str t "arrow") section_types then
    Ok ("process_flow", if (n <=? 4)%nat then "left_to_right" else "top_to_bottom")
  else
    let* b := py_any (py_in "list") section_types in
    if b then Ok ("concept_map", "top_to_bottom")
    else if (4 <? n)%nat then Ok ("hierarchy", "top_to_bottom")
    else Ok ("process_flow", "top_to_bottom").

Definition new_section (role : string) (text color : pyval)
  (emphasis visual_weight : string) : pyval :=
  PDict [("role", PStr role); ("text", text); ("color", color);
         ("emphasis", PStr emphasis); ("visual_weight", PStr visual_weight)].

(** The body of the loop at lines 135-163. *)
Definition convert_section (i : nat) (section : pyval) : result pyval :=
  let* old_type := py_get section "type" (PStr "box") in
  let '(role, emphasis, visual_weight) :=
    if (py_eq_str old_type "box" || py_eq_str old_type "icon_box") && (i =? 0)%nat
    then ("main_concept", "primary", "heavy")
    else if py_eq_str old_type "arrow" || py_eq_str old_type "connector"
    then ("connector", "tertiary", "light")
    else if py_eq_str old_type "process" || py_eq_str old_type "list"
    then ("process_step", "secondary", "medium")
    else ("supporting_point", "secondary", "medium") in
  let* text := py_get section "text" (PStr "") in
  let* color := py_get section "color" (PStr "blue") in
  Ok (new_section role text color emphasis visual_weight).

Definition infographic (title : pyval) (layout visual_flow : string)
  (sections : list pyval) : dict :=
  [("title", title); ("layout", PStr layout);
   ("visual_flow", PStr visual_flow); ("sections", PList sections)].

(** Lines 116-170: the conversion of the old format. *)
Definition reconstruct (parsed_data : pyval) : result pyval :=
  let* title := py_get parsed_data "title" (PStr "PROFESSIONAL INFOGRAPHIC") in
  let* old_sections := py_get parsed_data "sections" (PList []) in
  let* items := py_iter old_sections in
  let* section_types :=
    map_enum (fun _ section => py_get section "type" (PStr "")) 0 items in
  let* '(layout, visual_flow) := infer_layout section_types (length items) in
  let* new_sections := map_enum convert_section 0 items in
  Ok (PDict (infographic title layout visual_flow new_sections)).

Definition convert_to_professional_schema (parsed_data : pyval) : result pyval :=
  let* b := already_professional parsed_data in
  if b then Ok parsed_data else reconstruct parsed_data.

(* ================================================================== *)
(** ** Heuristic Fallback Generator: [fallback_from_text] *)
(* ================================================================== *)

Definition is_delim (c : ascii) : bool :=
  Ascii.eqb c "."%char || Ascii.eqb c (ascii_of_nat 10) ||
  Ascii.eqb c "!"%char || Ascii.eqb c "?"%char.

(** [re.split(r'[.\n!?]\s*', s)]: a match is one delimiter and the run of
    whitespace after it; [skipping] holds while that run is being consumed.
    The head of the result is the piece that starts at [s]. *)
Fixpoint re_split (skipping : bool) (s : string) : list string :=
  match s with
  | EmptyString => [EmptyString]
  | String c r =>
      if skipping && PyStr.isspace c then re_split true r
      else if is_delim c then EmptyString :: re_split true r
      else
        match re_split false r with
        | p :: ps => String c p :: ps
        | [] => [String c EmptyString]
        end
  end.

(** [[s.strip() for s in re.split(...) if s.strip()]]. *)
Definition split_sentences (user_text : string) : list string :=
  filter PyStr.nonempty (map PyStr.strip (re_split false user_text)).

Definition comparison_words : list string :=
  ["vs"; "versus"; "compare"; "comparison"; "difference"].
Definition hierarchy_words : list string :=
  ["hierarchy"; "priority"; "level"; "rank"; "tier"].
Definition concept_words : list string :=
  ["concept"; "idea"; "central"; "core"; "main"].

(** [any(word in user_text.lower() for word in words)]. *)
Definition any_word_in (words : list string) (user_text : string) : bool :=
  existsb (fun word => PyStr.contains word (PyStr.lower user_text)) words.

Definition fallback_layout (user_text : string) : string :=
  if any_word_in comparison_words user_text then "comparison"
  else if any_word_in hierarchy_words user_text then "hierarchy"
  else if any_word_in concept_words user_text then "concept_map"
  else "process_flow".

Definition fallback_title (sentences : list string) (user_text : string) : string :=
  let title :=
    PyStr.upper (match sentences with
                 | s0 :: _ => PyStr.take 40 s0
                 | [] => PyStr.take 40 user_text
                 end) in
  if PyStr.nonempty title then title else "PROFESSIONAL INFOGRAPHIC".

Definition colors : list string :=
  ["blue"; "green"; "orange"; "red"; "purple"; "teal"].

(** The loop at lines 209-217 over [enumerate(sentences[1:5], 1)]. *)
Fixpoint supporting_sections (layout : string) (i : nat) (rest : list string)
  : list pyval :=
  match rest with
  | [] => []
  | sentence :: more =>
      new_section
        (if String.eqb layout "process_flow" then "process_step"
         else "supporting_point")
        (PStr (PyStr.take 100 sentence))
        (PStr (nth (i mod length colors) colors ""))
        "secondary" "medium"
      :: supporting_sections layout (S i) more
  end.

Definition fallback_sections (layout : string) (sentences : list string)
  (user_text : string) : list pyval :=
  let sections :=
    match sentences with
    | s0 :: rest =>
        new_section "main_concept" (PStr (PyStr.take 120 s0))
                    (PStr (nth 0 colors "")) "primary" "heavy"
        :: supporting_sections layout 1 (firstn 4 rest)
    | [] => []
    end in
  match sections with
  | [] =>
      [new_section "main_concept"
         (PStr (if PyStr.nonempty user_text then PyStr.take 120 user_text
                else "No meaningful content found."))
         (PStr "blue") "primary" "heavy"]
  | _ :: _ => sections
  end.

Definition fallback_note : string := "LOCAL FALLBACK - API unavailable".

Definition fallback_from_text (user_text : string) : pyval :=
  let sentences := split_sentences user_text in
  let title := fallback_title sentences user_text in
  let layout := fallback_layout user_text in
  let visual_flow := "top_to_bottom" in
  let sections := fallback_sections layout sentences user_text in
  PDict ((infographic (PStr title) layout visual_flow sections
            ++ [("note", PStr fallback_note)])%list).

(* ================================================================== *)
(** ** Generation Orchestrator: [generate] *)
(* ================================================================== *)

(** The effects of one request: calls of [client.models.generate_content]
    and calls of [log_raw] (recorded by their [note]; [log_raw] swallows
    its own failures and returns nothing). *)
Inductive event : Type :=
| RemoteCall (model contents : string)
| LogRaw (note : string).

(** What a remote call does: it raises, or it yields a response whose
    [text] is a str or [None]. *)
Inductive remote_outcome : Type :=
| RemoteRaises (e : exn)
| RemoteText (text : option string).

Definition M (A : Type) : Type := (result A * list event)%type.

Definition ret {A : Type} (a : A) : M A := (Ok a, []).
Definition raise {A : Type} (e : exn) : M A := (Raise e, []).
Definition lift {A : Type} (r : result A) : M A := (r, []).
Definition emit (ev : event) : M unit := (Ok tt, [ev]).

(** [log_raw(user_text, raw_output, note)]: a write to the diagnostic log,
    known by its note. *)
Definition log_raw (note : string) : M unit := emit (LogRaw note).

Definition mbind {A B : Type} (m : M A) (k : A -> M B) : M B :=
  match m with
  | (Ok a, t) => let '(r, t') := k a in (r, (t ++ t')%list)
  | (Raise e, t) => (Raise e, t)
  end.

(** [try: m except Exception as e: h e]. *)
Definition try_except {A : Type} (m : M A) (h : exn -> M A) : M A :=
  match m with
  | (Ok a, t) => (Ok a, t)
  | (Raise e, t) => let '(r, t') := h e in (r, (t ++ t')%list)
  end.

Notation "x <- m ;; k" := (mbind m (fun x => k))
  (at level 61, m at next level, right associativity).
Notation "m ;;; k" := (mbind m (fun _ => k))
  (at level 61, right associativity).

(** The collaborators [generate] is written against. [client] is [None]
    when the start-up initialisation failed; otherwise it answers a call
    for a model and a prompt. [json_loads] is Python's [json.loads]. *)
Record environment : Type := {
  NAPKIN_PROMPT : string;
  client : option (string -> string -> remote_outcome);
  json_loads : string -> result pyval
}.

Definition flash : string := "gemini-2.5-flash".
Definition pro : string := "gemini-2.5-pro".

Definition error_box (text color : string) : pyval :=
  PDict [("type", PStr "box"); ("text", PStr text); ("color", PStr color)].

Definition no_data_result : pyval :=
  PDict [("title", PStr "ERROR");
         ("sections", PList [error_box "No data received." "red"])].

Definition input_error_result : pyval :=
  PDict [("title", PStr "ERROR");
         ("sections", PList [error_box "No input provided." "red"])].

Definition system_error_result : pyval :=
  PDict [("title", PStr "SYSTEM ERROR");
         ("sections",
          PList [error_box "An unexpected error occurred." "red";
                 error_box "Please try again or contact support." "orange"]);
         ("note", PStr "SYSTEM_ERROR")].

(** [v.strip()]: only a str has the method. *)
Definition py_strip (v : pyval) : result string :=
  match v with
  | PStr s => Ok (PyStr.strip s)
  | _ => Raise AttributeError
  end.

Section Orchestrator.

Variable env : environment.

Definition contents_for (user_text : string) : string :=
  NAPKIN_PROMPT env ++ nl ++ nl ++ user_text.

(** One [client.models.generate_content(...)] followed by
    [response.text or ""]. *)
Definition generate_content (c : string -> string -> remote_outcome)
  (model user_text : string) : M string :=
  emit (RemoteCall model (contents_for user_text)) ;;;
  match c model (contents_for user_text) with
  | RemoteRaises e => raise e
  | RemoteText (Some text) => ret text
  | RemoteText None => ret ""
  end.

(** Lines 265-301, the body of the inner [try]. *)
Definition api_body (c : string -> string -> remote_outcome)
  (user_text : string) : M pyval :=
  rs <- try_except
          (raw <- generate_content c flash user_text ;; ret (raw, flash))
          (fun _ => raw <- generate_content c pro user_text ;; ret (raw, pro)) ;;
  log_raw ("Used " ++ snd rs) ;;;
  let cleaned := safe_clean (fst rs) in
  parsed <- lift (json_loads env cleaned) ;;
  has_title <- lift (py_in "title" parsed) ;;
  missing <- (if negb has_title then ret true
              else has_sections <- lift (py_in "sections" parsed) ;;
                   ret (negb has_sections)) ;;
  if (missing : bool) then raise ValueError
  else converted_result <- lift (convert_to_professional_schema parsed) ;;
       ret converted_result.

(** Lines 263-308: the inner [try] with its two handlers. [Some] is the
    [return] inside the [try]; [None] is falling out of a handler. *)
Definition api_attempt (c : string -> string -> remote_outcome)
  (user_text : string) : M (option pyval) :=
  try_except
    (r <- api_body c user_text ;; ret (Some r))
    (fun e =>
       match e with
       | JSONDecodeError => log_raw "JSON_PARSE_FALLBACK"
       | _ => log_raw "API_FALLBACK"
       end ;;; ret None).

(** Lines 247-314, the body of the outer [try]; [request_json] is what
    [request.get_json()] does. *)
Definition generate_body (request_json : result pyval) : M pyval :=
  data <- lift request_json ;;
  if negb (truthy data) then ret no_data_result
  else
    text <- lift (py_get data "text" (PStr "")) ;;
    user_text <- lift (py_strip text) ;;
    if negb (PyStr.nonempty user_text) then ret input_error_result
    else
      r <- match client env with
           | Some c => api_attempt c user_text
           | None => ret None
           end ;;
      match r with
      | Some converted_result => ret converted_result
      | None =>
          let fallback_result := fallback_from_text user_text in
          log_raw "FALLBACK_USED" ;;; ret fallback_result
      end.

(** The final handler logs only if [request.get_json().get("text", "")]
    can be evaluated again. *)
Definition fatal_log (request_json : result pyval) : M unit :=
  match request_json with
  | Ok data =>
      match py_get data "text" (PStr "") with
      | Ok _ => log_raw "FATAL_ERROR"
      | Raise _ => ret tt
      end
  | Raise _ => ret tt
  end.

Definition generate (request_json : result pyval) : M pyval :=
  try_except (generate_body request_json)
    (fun _ => fatal_log request_json ;;; ret system_error_result).

End Orchestrator.

(** A request whose JSON body is [{"text": text}]. *)
Definition post (text : string) : result pyval :=
  Ok (PDict [("text", PStr text)]).


(* ================================================================== *)
(** ** Vocabulary of the specification *)
(* ================================================================== *)

(** [sub] occurs in [s]: some text before it, some text after it. *)
Definition occurs (sub s : string) : Prop :=
  exists pre post, s = pre ++ sub ++ post.

(** The character [c] occurs in [s]. *)
Fixpoint mem (c : ascii) (s : string) : bool :=
  match s with
  | EmptyString => false
  | String a r => Ascii.eqb a c || mem c r
  end.


(** [v[k]] read off a dict value, when [v] is a dict that has the key. *)
Definition field (k : string) (v : pyval) : option pyval :=
  match v with
  | PDict d => dict_get k d
  | _ => None
  end.

Definition role_is_main (section : pyval) : bool :=
  match field "role" section with
  | Some (PStr r) => String.eqb r "main_concept"
  | _ => false
  end.

(** The number of [main_concept] sections of a result. *)
Definition main_concept_count (r : pyval) : option nat :=
  match field "sections" r with
  | Some (PList l) => Some (List.length (filter role_is_main l))
  | _ => None
  end.

Definition layouts : list string :=
  ["process_flow"; "concept_map"; "hierarchy"; "comparison"].
Definition visual_flows : list string :=
  ["top_to_bottom"; "left_to_right"; "center_radial"; "layered"].

Definition str_among (v : option pyval) (l : list string) : bool :=
  match v with
  | Some (PStr s) => existsb (String.eqb s) l
  | _ => false
  end.

(** The four properties the specification promises of a result. *)
Definition conforms (r : pyval) : bool :=
  match field "title" r with Some (PStr t) => PyStr.nonempty t | _ => false end
  && str_among (field "layout" r) layouts
  && str_among (field "visual_flow" r) visual_flows
  && match field "sections" r with
     | Some (PList l) => (1 <=? List.length l)%nat
     | _ => false
     end.

(** *** The target-schema signature and the legacy shape *)

Definition is_object (v : pyval) : bool :=
  match v with PDict _ => true | _ => false end.




(** A legacy section: a JSON object with no [role] key whose [type], when
    it has one, is a str. *)
Definition is_legacy_section (section : pyval) : bool :=
  match section with
  | PDict sd =>
      negb (has_key "role" sd) &&
      match dict_get "type" sd with
      | None | Some (PStr _) => true
      | Some _ => false
      end
  | _ => false
  end.

(** A legacy-shaped input: no [visual_flow] key, and the sections, when
    present, are a list of legacy sections. *)
Definition legacy_shaped (d : dict) : bool :=
  negb (has_key "visual_flow" d) &&
  match dict_get "sections" d with
  | None => true
  | Some (PList secs) => forallb is_legacy_section secs
  | Some _ => false
  end.

(** *** The normalizer as the specification words it (section 4.2) *)

Definition legacy_type (section : pyval) : option string :=
  match field "type" section with
  | Some (PStr t) => Some t
  | _ => None
  end.

Definition has_type (section : pyval) : bool :=
  match legacy_type section with Some _ => true | None => false end.

Definition among (t : string) (l : list string) : bool :=
  existsb (String.eqb t) l.

(** "presence of arrow => process_flow (left_to_right when section count
    <= 4, else top_to_bottom); presence of any type containing the
    substring list => concept_map; more than 4 sections => hierarchy;
    otherwise default process_flow / top_to_bottom". *)
Definition spec_layout (types : list string) (count : nat) : string * string :=
  if existsb (fun t => String.eqb t "arrow") types then
    ("process_flow", if (count <=? 4)%nat then "left_to_right" else "top_to_bottom")
  else if existsb (PyStr.contains "list") types then ("concept_map", "top_to_bottom")
  else if (4 <? count)%nat then ("hierarchy", "top_to_bottom")
  else ("process_flow", "top_to_bottom").

(** "type in {box, icon_box} AND is the first section => main_concept ...;
    type in {arrow, connector} => connector ...; type in {process, list}
    => process_step ...; anything else => supporting_point ...". A section
    with no type is "anything else". *)
Definition spec_role (first : bool) (type : option string)
  : string * string * string :=
  match type with
  | Some t =>
      if first && among t ["box"; "icon_box"]
      then ("main_concept", "primary", "heavy")
      else if among t ["arrow"; "connector"]
      then ("connector", "tertiary", "light")
      else if among t ["process"; "list"]
      then ("process_step", "secondary", "medium")
      else ("supporting_point", "secondary", "medium")
  | None => ("supporting_point", "secondary", "medium")
  end.

(** The same mapping with the default of the code: a section with no type
    counts as a [box]. *)
Definition role_with_default (first : bool) (type : option string)
  : string * string * string :=
  spec_role first (Some (match type with Some t => t | None => "box" end)).

Definition or_default (v : option pyval) (default : pyval) : pyval :=
  match v with Some x => x | None => default end.

Definition spec_section
  (role_of : bool -> option string -> string * string * string)
  (i : nat) (section : pyval) : pyval :=
  let '(role, emphasis, visual_weight) :=
    role_of (i =? 0)%nat (legacy_type section) in
  new_section role (or_default (field "text" section) (PStr ""))
    (or_default (field "color" section) (PStr "blue")) emphasis visual_weight.

Fixpoint mapi {A B : Type} (f : nat -> A -> B) (i : nat) (l : list A) : list B :=
  match l with
  | [] => []
  | x :: r => f i x :: mapi f (S i) r
  end.

Definition old_sections_of (d : dict) : list pyval :=
  match dict_get "sections" d with
  | Some (PList secs) => secs
  | _ => []
  end.

Definition present_types (secs : list pyval) : list string :=
  flat_map (fun s => match legacy_type s with Some t => [t] | None => [] end) secs.

(** The type a section contributes to the layout inference: its [type],
    or the empty str. *)
Definition type_or_empty (section : pyval) : pyval :=
  PStr (match legacy_type section with Some t => t | None => "" end).

Definition spec_normalize
  (role_of : bool -> option string -> string * string * string)
  (d : dict) : pyval :=
  let secs := old_sections_of d in
  let '(layout, visual_flow) :=
    spec_layout (present_types secs) (List.length secs) in
  PDict (infographic
           (or_default (dict_get "title" d) (PStr "PROFESSIONAL INFOGRAPHIC"))
           layout visual_flow (mapi (spec_section role_of) 0 secs)).

(** *** Vocabulary for the orchestrator's results *)




(** *** Concrete collaborators for the examples *)

(** [json.loads] read off a table: each listed text parses to the value
    next to it, any other text is rejected. *)
Definition json_table (table : list (string * pyval)) (s : string) : result pyval :=
  match dict_get s table with
  | Some v => Ok v
  | None => Raise JSONDecodeError
  end.

Definition short_prompt : string := "You are a professional infographic designer.".

(** No client: the start-up initialisation failed. *)
Definition offline_env : environment :=
  {| NAPKIN_PROMPT := short_prompt;
     client := None;
     json_loads := json_table [] |}.

(** A client whose every call raises. *)
Definition failing_env : environment :=
  {| NAPKIN_PROMPT := short_prompt;
     client := Some (fun _ _ => RemoteRaises (OtherError "ServiceUnavailable"));
     json_loads := json_table [] |}.

(** The reply [{"title": "", "sections": [], "visual_flow": "sideways"}]
    and the value [json.loads] gives for it. *)
Definition unvalidated_reply_text : string :=
  "{" ++ dq ++ "title" ++ dq ++ ": " ++ dq ++ dq ++ ", "
      ++ dq ++ "sections" ++ dq ++ ": [], "
      ++ dq ++ "visual_flow" ++ dq ++ ": " ++ dq ++ "sideways" ++ dq ++ "}".

Definition unvalidated_reply : pyval :=
  PDict [("title", PStr ""); ("sections", PList []);
         ("visual_flow", PStr "sideways")].

Definition unvalidated_env : environment :=
  {| NAPKIN_PROMPT := short_prompt;
     client := Some (fun _ _ => RemoteText (Some unvalidated_reply_text));
     json_loads := json_table [(unvalidated_reply_text, unvalidated_reply)] |}.

(** The legacy structure of the specification's worked example. *)
Definition worked_example : dict :=
  [("title", PStr "T");
   ("sections",
    PList [PDict [("type", PStr "box"); ("text", PStr "A")];
           PDict [("type", PStr "arrow"); ("text", PStr "->")];
           PDict [("type", PStr "list"); ("text", PStr "B")]])].


(** A legacy structure whose first section has no [type]. *)
Definition untyped_first_section : dict :=
  [("title", PStr "T"); ("sections", PList [PDict [("text", PStr "A")]])].


(* ================================================================== *)
(** ** Vocabulary of the further properties *)
(* ================================================================== *)

(** Every character of [s] satisfies [p]. *)
Fixpoint all_chars (p : ascii -> bool) (s : string) : bool :=
  match s with
  | EmptyString => true
  | String c r => p c && all_chars p r
  end.

(** The text is empty or starts with a character that is no whitespace. *)
Definition starts_nonspace (s : string) : bool :=
  match s with
  | EmptyString => true
  | String c _ => negb (PyStr.isspace c)
  end.

(** The sections of a result, none when it has no list of them. *)
Definition sections_of (r : pyval) : list pyval :=
  match field "sections" r with
  | Some (PList l) => l
  | _ => []
  end.


(** The enums of a Section, as the prompt lists them (lines 37-41). *)
Definition roles : list string :=
  ["main_concept"; "supporting_point"; "process_step"; "conclusion"; "connector"].
Definition emphases : list string := ["primary"; "secondary"; "tertiary"].
Definition visual_weights : list string := ["heavy"; "medium"; "light"].

(** A section of the target schema: the five fields, each in its enum,
    the text a str. *)
Definition valid_section (section : pyval) : bool :=
  str_among (field "role" section) roles
  && match field "text" section with Some (PStr _) => true | _ => false end
  && str_among (field "color" section) colors
  && str_among (field "emphasis" section) emphases
  && str_among (field "visual_weight" section) visual_weights.

(** The text and the colour of [out] are those of [section], or the
    defaults of the conversion. *)
Definition copied (section out : pyval) : Prop :=
  field "text" out = Some (or_default (field "text" section) (PStr ""))
  /\ field "color" out = Some (or_default (field "color" section) (PStr "blue")).

(** The four combinations of role, emphasis and visual weight that the
    conversion assigns. *)
Definition converted_styles : list (string * string * string) :=
  [("main_concept", "primary", "heavy");
   ("connector", "tertiary", "light");
   ("process_step", "secondary", "medium");
   ("supporting_point", "secondary", "medium")].

Definition converted_style (out : pyval) : Prop :=
  exists role emphasis weight,
    field "role" out = Some (PStr role)
    /\ field "emphasis" out = Some (PStr emphasis)
    /\ field "visual_weight" out = Some (PStr weight)
    /\ In (role, emphasis, weight) converted_styles.

(** The value is a str. *)
Definition is_str (v : pyval) : bool :=
  match v with PStr _ => true | _ => false end.

(** Lines 261-314: what [generate] does with a text that passed the
    validation. *)
Definition after_validation (env : environment) (user_text : string) : M pyval :=
  r <- match client env with
       | Some c => api_attempt env c user_text
       | None => ret None
       end ;;
  match r with
  | Some converted_result => ret converted_result
  | None => log_raw "FALLBACK_USED" ;;; ret (fallback_from_text user_text)
  end.









(* ================================================================== *)
(** ** Facts about the string operations *)
(* ================================================================== *)

Module PyStrFacts.
Import PyStr.

Lemma append_assoc (a b c : string) : (a ++ b) ++ c = a ++ (b ++ c).
Proof. induction a as [|x a IH]; simpl; [reflexivity | now rewrite IH]. Qed.

Lemma length_append (a b : string) :
  String.length (a ++ b) = String.length a + String.length b.
Proof. induction a as [|x a IH]; simpl; [reflexivity | now rewrite IH]. Qed.



Lemma startswith_spec (p s : string) :
  startswith p s = true <-> exists post, s = p ++ post.
Proof.
  revert s; induction p as [|a p IH]; intros s; simpl.
  - split; [intros _; now exists s | reflexivity].
  - destruct s as [|b s].
    + split; [discriminate | intros [post H]; discriminate].
    + rewrite andb_true_iff, Ascii.eqb_eq, IH. split.
      * intros [-> [post ->]]. now exists post.
      * intros [post H]. injection H as -> ->. split; [reflexivity | now exists post].
Qed.

Lemma contains_spec (sub s : string) : contains sub s = true <-> occurs sub s.
Proof.
  unfold occurs. induction s as [|c r IH].
  - cbn [contains]. rewrite orb_false_r, startswith_spec. split.
    + intros [post H]. now exists "", post.
    + intros [pre [post H]]. destruct pre; [|discriminate]. now exists post.
  - cbn [contains]. rewrite orb_true_iff, startswith_spec, IH. split.
    + intros [[post H] | [pre [post H]]].
      * now exists "", post.
      * exists (String c pre), post. simpl. now rewrite H.
    + intros [pre [post H]]. destruct pre as [|x pre].
      * left. now exists post.
      * right. simpl in H. injection H as _ H. now exists pre, post.
Qed.

Lemma occurs_append (sub pre s post : string) :
  occurs sub s -> occurs sub (pre ++ s ++ post).
Proof.
  intros [a [b ->]]. exists (pre ++ a), (b ++ post).
  now rewrite !append_assoc.
Qed.

Lemma lstrip_suffix (s : string) : exists pre, s = pre ++ lstrip s.
Proof.
  induction s as [|c r [pre IH]]; simpl.
  - now exists "".
  - destruct (isspace c).
    + exists (String c pre). simpl. now rewrite <- IH.
    + now exists "".
Qed.

Lemma rstrip_prefix (s : string) : exists post, s = rstrip s ++ post.
Proof.
  induction s as [|c r [post IH]]; simpl.
  - now exists "".
  - destruct (rstrip r) as [|x r'] eqn:E.
    + destruct (isspace c).
      * now exists (String c r).
      * now exists r.
    + exists post. simpl. simpl in IH. now rewrite <- IH.
Qed.

Lemma strip_substring (s : string) : exists pre post, s = pre ++ strip s ++ post.
Proof.
  destruct (lstrip_suffix s) as [pre H].
  destruct (rstrip_prefix (lstrip s)) as [post H'].
  exists pre, post. unfold strip. now rewrite <- H', <- H.
Qed.

Lemma occurs_strip (sub s : string) : occurs sub (strip s) -> occurs sub s.
Proof.
  intros H. destruct (strip_substring s) as [pre [post E]].
  rewrite E. now apply occurs_append.
Qed.

Lemma mem_append c (a b : string) : mem c (a ++ b) = mem c a || mem c b.
Proof.
  induction a as [|x a IH]; simpl; [reflexivity|].
  now rewrite IH, orb_assoc.
Qed.

Lemma find_lower_bound c (s : string) : (-1 <= find c s)%Z.
Proof.
  induction s as [|a r IH]; simpl; [lia|].
  destruct (Ascii.eqb a c); [lia|].
  destruct (Z.eqb_spec (find c r) (-1)); lia.
Qed.

Lemma find_absent c (s : string) : find c s = (-1)%Z <-> mem c s = false.
Proof.
  induction s as [|a r IH]; simpl; [tauto|].
  destruct (Ascii.eqb a c); simpl.
  - split; discriminate.
  - pose proof (find_lower_bound c r) as B.
    destruct (Z.eqb_spec (find c r) (-1)) as [E|E]; rewrite <- IH.
    + tauto.
    + split; intros H; exfalso; apply E; lia.
Qed.

Lemma rfind_absent c (s : string) : rfind c s = (-1)%Z <-> mem c s = false.
Proof.
  induction s as [|a r IH]; simpl; [tauto|].
  destruct (Z.eqb_spec (rfind c r) (-1)) as [E|E].
  - apply IH in E. rewrite E, orb_false_r.
    destruct (Ascii.eqb a c); split; (reflexivity || discriminate).
  - assert (mem c r = true) as ->.
    { destruct (mem c r); [reflexivity|]. exfalso. apply E. now apply IH. }
    rewrite orb_true_r. split; [|discriminate].
    intros H. exfalso. apply E. 
    assert (-1 <= rfind c r)%Z; [|lia].
    clear. induction r as [|x r IH]; simpl; [lia|].
    destruct (Z.eqb_spec (rfind c r) (-1)); [destruct (Ascii.eqb x c)|]; lia.
Qed.

Lemma rfind_bounds c (s : string) :
  (-1 <= rfind c s < Z.of_nat (String.length s))%Z.
Proof.
  induction s as [|a r IH]; simpl String.length; cbn [rfind]; [lia|].
  destruct (Z.eqb_spec (rfind c r) (-1)); [destruct (Ascii.eqb a c)|]; lia.
Qed.

(** The first occurrence: nothing equal to [c] before it. *)
Lemma find_first c (pre post : string) :
  mem c pre = false ->
  find c (pre ++ String c post) = Z.of_nat (String.length pre).
Proof.
  induction pre as [|a pre IH]; cbn [append find mem String.length]; intros H.
  - now rewrite Ascii.eqb_refl.
  - apply orb_false_iff in H as [Ha Hp]. rewrite Ha, (IH Hp).
    destruct (Z.eqb_spec (Z.of_nat (String.length pre)) (-1)); lia.
Qed.

(** The last occurrence: nothing equal to [c] after it. *)
Lemma rfind_last c (pre post : string) :
  mem c post = false ->
  rfind c (pre ++ String c post) = Z.of_nat (String.length pre).
Proof.
  intros H. induction pre as [|a pre IH]; cbn [append rfind String.length].
  - apply rfind_absent in H. rewrite H. simpl. now rewrite Ascii.eqb_refl.
  - rewrite IH. destruct (Z.eqb_spec (Z.of_nat (String.length pre)) (-1)); lia.
Qed.

Lemma rfind_append_absent c (a b : string) :
  mem c b = false -> rfind c (a ++ b) = rfind c a.
Proof.
  intros H. induction a as [|x a IH]; cbn [append rfind].
  - now apply rfind_absent.
  - now rewrite IH.
Qed.

(** The first and the last occurrence of a character that occurs. *)
Lemma mem_first_split c (s : string) :
  mem c s = true ->
  exists pre post, s = pre ++ String c post /\ mem c pre = false.
Proof.
  induction s as [|a r IH]; [discriminate|]. cbn [mem].
  destruct (Ascii.eqb_spec a c) as [->|Hac].
  - intros _. now exists "", r.
  - cbn [orb]. intros H. destruct (IH H) as [pre [post [E Hpre]]].
    exists (String a pre), post. cbn [append mem]. rewrite E, Hpre.
    split; [reflexivity|].
    destruct (Ascii.eqb_spec a c); [contradiction | reflexivity].
Qed.

Lemma mem_last_split c (s : string) :
  mem c s = true ->
  exists pre post, s = pre ++ String c post /\ mem c post = false.
Proof.
  induction s as [|a r IH]; [discriminate|]. cbn [mem].
  destruct (mem c r) eqn:Hr.
  - intros _. destruct (IH eq_refl) as [pre [post [E Hpost]]].
    exists (String a pre), post. cbn [append]. now rewrite E.
  - rewrite orb_false_r. intros H. apply Ascii.eqb_eq in H as ->.
    now exists "", r.
Qed.

Lemma drop_append (a b : string) : drop (String.length a) (a ++ b) = b.
Proof. induction a as [|x a IH]; simpl; [now destruct b | exact IH]. Qed.

Lemma take_append (a b : string) : take (String.length a) (a ++ b) = a.
Proof. induction a as [|x a IH]; simpl; [reflexivity | now rewrite IH]. Qed.

(** [s[len(pre) : len(pre) + len(body)]] of [pre ++ body ++ post]. *)
Lemma slice_middle (pre body post : string) :
  slice (Z.of_nat (String.length pre))
        (Z.of_nat (String.length pre) + Z.of_nat (String.length body))
        (pre ++ body ++ post) = body.
Proof.
  unfold slice. rewrite Nat2Z.id, drop_append.
  replace (Z.to_nat _) with (String.length body) by lia.
  apply take_append.
Qed.

Lemma slice_empty (a b : Z) (s : string) : (b <= a)%Z -> slice a b s = "".
Proof.
  intros H. unfold slice. replace (Z.to_nat (b - a)) with 0 by lia. reflexivity.
Qed.

End PyStrFacts.

(* ================================================================== *)
(** ** Facts about the Text Cleaner *)
(* ================================================================== *)

Section CleanerFacts.
Import PyStr PyStrFacts.

Lemma replace_fence_keep c r :
  is_tick c = false -> replace_fence (String c r) = String c (replace_fence r).
Proof.
  intros H. destruct r as [|c2 [|c3 r3]]; simpl; try reflexivity.
  now rewrite H.
Qed.

Lemma replace_fence_keep2 c c2 r :
  is_tick c2 = false ->
  replace_fence (String c (String c2 r)) = String c (replace_fence (String c2 r)).
Proof.
  intros H. destruct r as [|c3 r3]; [reflexivity|].
  cbn [replace_fence]. now rewrite H, andb_false_r.
Qed.

Lemma startswith_ticks3 c (s : string) :
  startswith "```" (String c s) = is_tick c && startswith "``" s.
Proof. unfold is_tick. cbn [startswith]. now rewrite Ascii.eqb_sym. Qed.

Lemma startswith_ticks2 c c2 (s : string) :
  startswith "``" (String c (String c2 s)) = is_tick c && is_tick c2.
Proof.
  unfold is_tick. cbn [startswith].
  now rewrite andb_true_r, (Ascii.eqb_sym c), (Ascii.eqb_sym c2).
Qed.

(** After [replace], no fence is left: dropping a fence never brings the
    backticks on its two sides together into a new one. *)
Lemma replace_fence_clean (s : string) :
  contains "```" (replace_fence s) = false.
Proof.
  remember (String.length s) as n eqn:Hn.
  assert (Hle : String.length s <= n) by lia. clear Hn.
  revert s Hle. induction n as [|n IH]; intros s Hle.
  - destruct s; [reflexivity | simpl in Hle; lia].
  - destruct s as [|c [|c2 [|c3 r3]]].
    + reflexivity.
    + simpl. now rewrite !andb_false_r.
    + simpl. now rewrite !andb_false_r.
    + simpl in Hle.
      destruct (is_tick c && is_tick c2 && is_tick c3) eqn:E.
      * cbn [replace_fence]. rewrite E. apply IH. lia.
      * assert (R : replace_fence (String c (String c2 (String c3 r3))) =
                    String c (replace_fence (String c2 (String c3 r3)))).
        { cbn [replace_fence]. now rewrite E. }
        rewrite R. cbn [contains].
        rewrite (IH (String c2 (String c3 r3))) by (simpl; lia).
        rewrite orb_false_r, startswith_ticks3.
        destruct (is_tick c) eqn:T1; [|reflexivity]. cbn [andb].
        destruct (is_tick c2) eqn:T2.
        -- destruct (is_tick c3) eqn:T3; [discriminate|].
           rewrite replace_fence_keep2, replace_fence_keep by assumption.
           now rewrite startswith_ticks2, T3, andb_false_r.
        -- rewrite replace_fence_keep by assumption.
           cbn [startswith]. unfold is_tick in T2.
           now rewrite (Ascii.eqb_sym "`"%char c2), T2.
Qed.

Lemma strip_fences_clean (raw : string) :
  contains "```" (strip_fences raw) = false.
Proof.
  unfold strip_fences.
  destruct (contains "```" (strip (replace_fence (sub_fence raw)))) eqn:E;
    [|reflexivity].
  apply contains_spec, occurs_strip, contains_spec in E.
  now rewrite replace_fence_clean in E.
Qed.


Lemma safe_clean_no_pair (raw : string) :
  mem "{" (strip_fences raw) = false \/ mem "}" (strip_fences raw) = false ->
  safe_clean raw = strip_fences raw.
Proof.
  intros H. unfold safe_clean.
  destruct H as [H|H].
  - apply find_absent in H. now rewrite H.
  - apply rfind_absent in H. rewrite H. now rewrite andb_false_r.
Qed.

Lemma safe_clean_object (raw pre body post : string) :
  strip_fences raw = pre ++ "{" ++ body ++ "}" ++ post ->
  mem "{" pre = false -> mem "}" post = false ->
  safe_clean raw = "{" ++ body ++ "}".
Proof.
  intros E Hpre Hpost. unfold safe_clean. rewrite E.
  change (pre ++ "{" ++ body ++ "}" ++ post)
    with (pre ++ String "{" (body ++ String "}" post)).
  rewrite (find_first _ pre _ Hpre).
  replace (pre ++ String "{" (body ++ String "}" post))
    with ((pre ++ "{" ++ body) ++ String "}" post)
    by (rewrite !append_assoc; reflexivity).
  rewrite (rfind_last _ _ post Hpost).
  destruct (Z.eqb_spec (Z.of_nat (String.length pre)) (-1)); [lia|].
  destruct (Z.eqb_spec (Z.of_nat (String.length (pre ++ "{" ++ body))) (-1)); [lia|].
  cbn [negb andb].
  replace ((pre ++ "{" ++ body) ++ String "}" post)
    with (pre ++ ("{" ++ body ++ "}") ++ post)
    by (rewrite !append_assoc; reflexivity).
  replace (Z.of_nat (String.length (pre ++ "{" ++ body)) + 1)%Z
    with (Z.of_nat (String.length pre) + Z.of_nat (String.length ("{" ++ body ++ "}")))%Z.
  - apply slice_middle.
  - rewrite !length_append. cbn [String.length append].
    rewrite ?length_append. cbn [String.length]. lia.
Qed.

Lemma safe_clean_reversed (raw pre mid : string) :
  strip_fences raw = pre ++ "{" ++ mid ->
  mem "{" pre = false -> mem "}" pre = true -> mem "}" mid = false ->
  safe_clean raw = "".
Proof.
  intros E Hpre Hin Hmid. unfold safe_clean. rewrite E.
  change (pre ++ "{" ++ mid) with (pre ++ String "{" mid).
  rewrite (find_first _ pre _ Hpre).
  rewrite rfind_append_absent by (simpl; exact Hmid).
  pose proof (rfind_bounds "}" pre) as B.
  destruct (Z.eqb_spec (Z.of_nat (String.length pre)) (-1)); [lia|].
  destruct (Z.eqb_spec (rfind "}" pre) (-1)) as [A|A].
  - apply rfind_absent in A. congruence.
  - cbn [negb andb]. apply slice_empty. lia.
Qed.

(** The three situations of the braces cover every text. *)
Lemma brace_cases (s : string) :
  (mem "{" s = false \/ mem "}" s = false) \/
  (exists pre body post,
     s = pre ++ "{" ++ body ++ "}" ++ post /\
     mem "{" pre = false /\ mem "}" post = false) \/
  (exists pre mid,
     s = pre ++ "{" ++ mid /\
     mem "{" pre = false /\ mem "}" pre = true /\ mem "}" mid = false).
Proof.
  destruct (mem "{" s) eqn:Ho; [|now left; left].
  destruct (mem "}" s) eqn:Hc; [|now left; right].
  right. destruct (mem_first_split _ _ Ho) as [pre [mid [E Hpre]]].
  destruct (mem "}" mid) eqn:Hm.
  - left. destruct (mem_last_split _ _ Hm) as [body [post [E' Hpost]]].
    exists pre, body, post. subst s mid. now repeat split.
  - right. exists pre, mid. subst s. repeat split; try assumption.
    rewrite mem_append in Hc. cbn [mem] in Hc. rewrite Hm in Hc.
    cbn in Hc. now rewrite orb_false_r in Hc.
Qed.

End CleanerFacts.

(* ================================================================== *)
(** ** Facts about the Heuristic Fallback Generator *)
(* ================================================================== *)

Section FallbackFacts.
Import PyStr PyStrFacts.



Lemma fallback_layout_field (user_text : string) :
  field "layout" (fallback_from_text user_text)
  = Some (PStr (fallback_layout user_text)).
Proof. reflexivity. Qed.


Lemma fallback_sections_field (user_text : string) :
  field "sections" (fallback_from_text user_text)
  = Some (PList (fallback_sections (fallback_layout user_text)
                   (split_sentences user_text) user_text)).
Proof. reflexivity. Qed.




Lemma supporting_sections_length layout i rest :
  List.length (supporting_sections layout i rest) = List.length rest.
Proof.
  revert i; induction rest as [|x rest IH]; intros i; simpl;
    [reflexivity | now rewrite IH].
Qed.

Lemma supporting_sections_no_main layout i rest :
  filter role_is_main (supporting_sections layout i rest) = [].
Proof.
  revert i; induction rest as [|x rest IH]; intros i; [reflexivity|].
  cbn [supporting_sections filter].
  replace (role_is_main _) with false; [apply IH|].
  unfold role_is_main, new_section, field. cbn [dict_get String.eqb].
  destruct (String.eqb layout "process_flow"); reflexivity.
Qed.


Lemma fallback_sections_one_main layout sentences user_text :
  List.length (filter role_is_main (fallback_sections layout sentences user_text)) = 1.
Proof.
  unfold fallback_sections. destruct sentences as [|s0 rest]; [reflexivity|].
  cbn [filter]. replace (role_is_main _) with true by reflexivity.
  cbn [List.length]. now rewrite supporting_sections_no_main.
Qed.


End FallbackFacts.

(* ================================================================== *)
(** ** Facts about the Schema Normalizer *)
(* ================================================================== *)

Section NormalizerFacts.
Import PyStr PyStrFacts.





Lemma any_role_absent (secs : list pyval) :
  forallb is_legacy_section secs = true ->
  py_any (py_in "role") secs = Ok false.
Proof.
  induction secs as [|s secs IH]; [reflexivity|].
  cbn [forallb py_any]. intros H. apply andb_true_iff in H as [Hs Hall].
  destruct s; try discriminate. cbn [is_legacy_section] in Hs.
  apply andb_true_iff in Hs as [Hr _]. cbn [py_in bind].
  destruct (has_key "role" d); [discriminate|]. now apply IH.
Qed.

Lemma already_professional_legacy (d : dict) :
  legacy_shaped d = true -> already_professional (PDict d) = Ok false.
Proof.
  unfold legacy_shaped, already_professional. cbn [py_in py_get bind].
  destruct (has_key "visual_flow" d); [discriminate|]. cbn [negb andb].
  destruct (dict_get "sections" d) as [[| | | | |secs|]|]; try discriminate;
    [|reflexivity].
  intros H. destruct secs as [|s secs]; [reflexivity|].
  cbn [truthy negb py_iter bind]. now apply any_role_absent.
Qed.

Lemma section_types_legacy (secs : list pyval) (i : nat) :
  forallb is_legacy_section secs = true ->
  map_enum (fun _ section => py_get section "type" (PStr "")) i secs
  = Ok (map type_or_empty secs).
Proof.
  revert i; induction secs as [|s secs IH]; intros i H; [reflexivity|].
  cbn [forallb] in H. apply andb_true_iff in H as [Hs Hall].
  cbn [map_enum map]. rewrite (IH (S i) Hall).
  destruct s; try discriminate. cbn [is_legacy_section] in Hs.
  apply andb_true_iff in Hs as [_ Ht].
  unfold type_or_empty, legacy_type, field. cbn [py_get bind].
  destruct (dict_get "type" d) as [[| | | | | |]|]; try discriminate; reflexivity.
Qed.

Lemma arrow_among_types (secs : list pyval) :
  existsb (fun t => py_eq_str t "arrow") (map type_or_empty secs)
  = existsb (fun t => String.eqb t "arrow") (present_types secs).
Proof.
  induction secs as [|s secs IH]; [reflexivity|].
  unfold present_types in *. cbn [map existsb flat_map].
  rewrite existsb_app, <- IH. unfold type_or_empty at 1.
  destruct (legacy_type s); cbn [py_eq_str existsb]; [|reflexivity].
  now rewrite orb_false_r.
Qed.

Lemma list_among_types (secs : list pyval) :
  py_any (py_in "list") (map type_or_empty secs)
  = Ok (existsb (contains "list") (present_types secs)).
Proof.
  induction secs as [|s secs IH]; [reflexivity|].
  unfold present_types in *. cbn [map py_any flat_map].
  rewrite existsb_app, IH. unfold type_or_empty.
  destruct (legacy_type s) as [t|]; cbn [py_in bind existsb].
  - rewrite orb_false_r. now destruct (contains "list" t).
  - reflexivity.
Qed.

Lemma infer_layout_legacy (secs : list pyval) (n : nat) :
  infer_layout (map type_or_empty secs) n
  = Ok (spec_layout (present_types secs) n).
Proof.
  unfold infer_layout, spec_layout.
  rewrite arrow_among_types, list_among_types.
  destruct (existsb _ (present_types secs)); [reflexivity|]. cbn [bind].
  destruct (existsb (contains "list") _); [reflexivity|].
  now destruct (4 <? n)%nat.
Qed.

Lemma convert_section_legacy (i : nat) (section : pyval) :
  is_legacy_section section = true ->
  convert_section i section = Ok (spec_section role_with_default i section).
Proof.
  destruct section; try discriminate. cbn [is_legacy_section].
  intros H. apply andb_true_iff in H as [_ Ht].
  unfold convert_section, spec_section, role_with_default, legacy_type, field.
  cbn [py_get bind or_default].
  destruct (dict_get "type" d) as [[| | | |t| |]|]; try discriminate;
    cbn [py_eq_str spec_role among existsb].
  - rewrite !orb_false_r, (andb_comm (i =? 0)%nat).
    destruct ((t =? "box") || (t =? "icon_box"))%string; cbn [andb].
    + destruct (i =? 0)%nat; [reflexivity|].
      destruct ((t =? "arrow") || (t =? "connector"))%string; [reflexivity|].
      destruct ((t =? "process") || (t =? "list"))%string; reflexivity.
    + destruct ((t =? "arrow") || (t =? "connector"))%string; [reflexivity|].
      destruct ((t =? "process") || (t =? "list"))%string; reflexivity.
  - cbn. destruct (i =? 0)%nat; reflexivity.
Qed.

Lemma new_sections_legacy (secs : list pyval) (i : nat) :
  forallb is_legacy_section secs = true ->
  map_enum convert_section i secs
  = Ok (mapi (spec_section role_with_default) i secs).
Proof.
  revert i; induction secs as [|s secs IH]; intros i H; [reflexivity|].
  cbn [forallb] in H. apply andb_true_iff in H as [Hs Hall].
  cbn [map_enum mapi]. now rewrite (convert_section_legacy i s Hs), (IH (S i) Hall).
Qed.

Lemma reconstruct_legacy (d : dict) :
  legacy_shaped d = true ->
  reconstruct (PDict d) = Ok (spec_normalize role_with_default d).
Proof.
  unfold legacy_shaped. intros H. apply andb_true_iff in H as [_ H].
  assert (Hget : py_get (PDict d) "sections" (PList []) = Ok (PList (old_sections_of d))
                 /\ forallb is_legacy_section (old_sections_of d) = true).
  { unfold old_sections_of. cbn [py_get].
    destruct (dict_get "sections" d) as [[| | | | |secs|]|]; try discriminate;
      split; (reflexivity || assumption). }
  destruct Hget as [Hget Hall].
  unfold reconstruct, spec_normalize. rewrite Hget.
  cbn [py_get bind py_iter].
  rewrite (section_types_legacy _ 0 Hall). cbn [bind].
  rewrite infer_layout_legacy. cbn [bind].
  rewrite (new_sections_legacy _ 0 Hall).
  destruct (spec_layout _ _) as [layout visual_flow]. reflexivity.
Qed.

(** Where every section has a type, the default is never used. *)
Lemma mapi_roles_agree (secs : list pyval) (i : nat) :
  forallb has_type secs = true ->
  mapi (spec_section role_with_default) i secs
  = mapi (spec_section spec_role) i secs.
Proof.
  revert i; induction secs as [|s secs IH]; intros i H; [reflexivity|].
  cbn [forallb] in H. apply andb_true_iff in H as [Hs Hall].
  cbn [mapi]. rewrite (IH (S i) Hall). f_equal.
  unfold spec_section, role_with_default, has_type in *.
  now destruct (legacy_type s).
Qed.

Lemma spec_normalize_agree (d : dict) :
  forallb has_type (old_sections_of d) = true ->
  spec_normalize role_with_default d = spec_normalize spec_role d.
Proof.
  intros H. unfold spec_normalize. now rewrite (mapi_roles_agree _ 0 H).
Qed.

(** Only the first section can become a [main_concept]. *)
Lemma convert_section_main (i : nat) (section y : pyval) :
  convert_section i section = Ok y -> role_is_main y = true -> i = 0.
Proof.
  unfold convert_section. destruct section; try discriminate.
  cbn [py_get bind].
  destruct (i =? 0)%nat eqn:E; [intros _ _; now apply Nat.eqb_eq in E|].
  rewrite andb_false_r.
  destruct (py_eq_str _ "arrow" || _);
    [|destruct (py_eq_str _ "process" || _)];
    intros H; injection H as <-; discriminate.
Qed.

Lemma new_sections_main_bound (secs : list pyval) (i : nat) (l : list pyval) :
  map_enum convert_section i secs = Ok l ->
  List.length (filter role_is_main l) <= (if (i =? 0)%nat then 1 else 0).
Proof.
  revert i l; induction secs as [|s secs IH]; intros i l H.
  - injection H as <-. simpl. destruct (i =? 0)%nat; lia.
  - cbn [map_enum] in H.
    destruct (convert_section i s) as [y|] eqn:Ey; [|discriminate].
    cbn [bind] in H.
    destruct (map_enum convert_section (S i) secs) as [ys|] eqn:Eys; [|discriminate].
    injection H as <-. specialize (IH _ _ Eys). cbn [Nat.eqb] in IH.
    cbn [filter]. destruct (role_is_main y) eqn:Em.
    + apply (convert_section_main _ _ _ Ey) in Em. subst i. simpl. lia.
    + destruct (i =? 0)%nat; lia.
Qed.

Lemma reconstruct_main_bound (v r : pyval) :
  reconstruct v = Ok r ->
  exists n, main_concept_count r = Some n /\ n <= 1.
Proof.
  unfold reconstruct. intros H.
  destruct (py_get v "title" _) as [title|]; [|discriminate]. cbn [bind] in H.
  destruct (py_get v "sections" _) as [old|]; [|discriminate]. cbn [bind] in H.
  destruct (py_iter old) as [items|]; [|discriminate]. cbn [bind] in H.
  destruct (map_enum _ 0 items) as [types|]; [|discriminate]. cbn [bind] in H.
  destruct (infer_layout types _) as [[layout flow]|]; [|discriminate].
  cbn [bind] in H.
  destruct (map_enum convert_section 0 items) as [new|] eqn:En; [|discriminate].
  injection H as <-.
  exists (List.length (filter role_is_main new)). split; [reflexivity|].
  exact (new_sections_main_bound _ _ _ En).
Qed.

End NormalizerFacts.

(* ================================================================== *)
(** ** Facts about the orchestrator *)
(* ================================================================== *)

Section OrchestratorFacts.
Import PyStr PyStrFacts.

(** The result component of [M] is a monad morphism onto [result]. *)
Lemma fst_mbind {A B : Type} (m : M A) (k : A -> M B) :
  fst (mbind m k) = bind (fst m) (fun a => fst (k a)).
Proof.
  destruct m as [[a|e] t]; cbn [mbind fst bind]; [|reflexivity].
  now destruct (k a).
Qed.

Lemma fst_try_except {A : Type} (m : M A) (h : exn -> M A) :
  fst (try_except m h)
  = match fst m with Ok a => Ok a | Raise e => fst (h e) end.
Proof.
  destruct m as [[a|e] t]; cbn [try_except fst]; [reflexivity|].
  now destruct (h e).
Qed.

Variable env : environment.



(** The inner [try] never lets an exception out. *)
Lemma fst_api_attempt c user_text :
  fst (api_attempt env c user_text)
  = match fst (api_body env c user_text) with
    | Ok r => Ok (Some r)
    | Raise _ => Ok None
    end.
Proof.
  unfold api_attempt. rewrite fst_try_except, fst_mbind.
  destruct (fst (api_body env c user_text)) as [r|e]; cbn [bind fst ret];
    [reflexivity|].
  rewrite fst_mbind. now destruct e.
Qed.


Lemma fst_generate (request_json : result pyval) :
  fst (generate env request_json)
  = match fst (generate_body env request_json) with
    | Ok r => Ok r
    | Raise _ => Ok system_error_result
    end.
Proof.
  unfold generate. rewrite fst_try_except.
  destruct (fst (generate_body env request_json)) as [r|e]; [reflexivity|].
  rewrite fst_mbind. unfold fatal_log.
  destruct request_json as [data|]; [|reflexivity].
  now destruct (py_get data "text" (PStr "")).
Qed.


End OrchestratorFacts.

Section Claims.
Import PyStr PyStrFacts.

(* ================================================================== *)
(** ** The claims *)
(* ================================================================== *)





(** C2: [generate] never raises. Whatever the request and the
    collaborators do, it returns a result; the inner [try] lets no
    exception of the remote call, the parse, the field check or the
    normalizer out; and when the guarded body raises, the result is the
    fixed system-error result, which has two sections. *)
Theorem generate_never_raises :
  forall (env : environment) (request_json : result pyval),
    (exists r, fst (generate env request_json) = Ok r) /\
    (forall c user_text, exists o, fst (api_attempt env c user_text) = Ok o) /\
    match fst (generate_body env request_json) with
    | Ok r => fst (generate env request_json) = Ok r
    | Raise _ => fst (generate env request_json) = Ok system_error_result
    end /\
    field "sections" system_error_result
    = Some (PList [error_box "An unexpected error occurred." "red";
                   error_box "Please try again or contact support." "orange"]).
Proof.
  intros env request_json. rewrite fst_generate. repeat split.
  - destruct (fst (generate_body env request_json)); eauto.
  - intros c user_text. rewrite fst_api_attempt.
    destruct (fst (api_body env c user_text)); eauto.
  - now destruct (fst (generate_body env request_json)).
Qed.

(** The guard is reached: a JSON body that is a list has no [get]. *)
Example generate_system_error :
  generate offline_env (Ok (PList [PInt 1])) = (Ok system_error_result, []).
Proof. reflexivity. Qed.







(** The scan for a [role] key stops with an exception at a section that
    is not a container. *)
Example convert_raises_on_null_section :
  convert_to_professional_schema
    (PDict [("title", PStr "T");
            ("sections", PList [PNone; PDict [("role", PStr "main_concept")]])])
  = Raise TypeError.
Proof. reflexivity. Qed.

(** C6, as the specification states it, fails: a first section with no
    [type] is "anything else" in the specification's mapping, hence a
    supporting_point, and the code makes it the main_concept. *)
Lemma convert_untyped_first_section :
  legacy_shaped untyped_first_section = true
  /\ convert_to_professional_schema (PDict untyped_first_section)
     = Ok (PDict (infographic (PStr "T") "process_flow" "top_to_bottom"
                    [new_section "main_concept" (PStr "A") (PStr "blue")
                       "primary" "heavy"]))
  /\ spec_normalize spec_role untyped_first_section
     = PDict (infographic (PStr "T") "process_flow" "top_to_bottom"
                [new_section "supporting_point" (PStr "A") (PStr "blue")
                   "secondary" "medium"]).
Proof. repeat split. Qed.

(** C6 (amended): on a legacy-shaped input (no [visual_flow] key; the
    sections, if any, a list of objects without [role] whose [type], if
    any, is a str) the normalizer returns the reference reconstruction of
    section 4.2 in which a section with no [type] counts as a [box]; where
    every section has a [type] this is the reference reconstruction as the
    specification words it; and the worked example of section 8 comes out
    as stated. *)
Theorem convert_legacy_reference :
  (forall d : dict,
     legacy_shaped d = true ->
     convert_to_professional_schema (PDict d)
     = Ok (spec_normalize role_with_default d)) /\
  (forall d : dict,
     legacy_shaped d = true ->
     forallb has_type (old_sections_of d) = true ->
     convert_to_professional_schema (PDict d)
     = Ok (spec_normalize spec_role d)) /\
  convert_to_professional_schema (PDict worked_example)
  = Ok (PDict (infographic (PStr "T") "process_flow" "left_to_right"
                 [new_section "main_concept" (PStr "A") (PStr "blue")
                    "primary" "heavy";
                  new_section "connector" (PStr "->") (PStr "blue")
                    "tertiary" "light";
                  new_section "process_step" (PStr "B") (PStr "blue")
                    "secondary" "medium"])).
Proof.
  assert (G : forall d : dict,
             legacy_shaped d = true ->
             convert_to_professional_schema (PDict d)
             = Ok (spec_normalize role_with_default d)).
  { intros d H. unfold convert_to_professional_schema.
    rewrite (already_professional_legacy d H). cbn [bind].
    now apply reconstruct_legacy. }
  split; [exact G|]. split; [|reflexivity].
  intros d H Ht. rewrite (G d H). now rewrite (spec_normalize_agree d Ht).
Qed.

(** Instances of C6 (amended): the worked example, where every section
    has a type, and the structure whose first section has none. *)
Lemma convert_legacy_reference_witness :
  convert_to_professional_schema (PDict worked_example)
  = Ok (spec_normalize spec_role worked_example)
  /\ convert_to_professional_schema (PDict untyped_first_section)
     = Ok (spec_normalize role_with_default untyped_first_section).
Proof.
  split.
  - exact (proj1 (proj2 convert_legacy_reference) worked_example eq_refl eq_refl).
  - exact (proj1 convert_legacy_reference untyped_first_section eq_refl).
Defined.






(** C9: a constructed result has at most one [main_concept] section. The
    fallback generator's result has exactly one, for every input; every
    result of the normalizer's reconstruction has at most one, whether
    [reconstruct] is taken alone or reached through
    [convert_to_professional_schema]; and the reconstruction does return
    on legacy-shaped input. *)
Theorem at_most_one_main_concept :
  (forall user_text : string,
     main_concept_count (fallback_from_text user_text) = Some 1) /\
  (forall v r : pyval,
     reconstruct v = Ok r ->
     exists n, main_concept_count r = Some n /\ n <= 1) /\
  (forall v r : pyval,
     already_professional v = Ok false ->
     convert_to_professional_schema v = Ok r ->
     exists n, main_concept_count r = Some n /\ n <= 1) /\
  (forall d : dict,
     legacy_shaped d = true -> exists r, reconstruct (PDict d) = Ok r).
Proof.
  split; [|split; [|split]].
  - intros user_text. unfold main_concept_count.
    rewrite fallback_sections_field. now rewrite fallback_sections_one_main.
  - exact reconstruct_main_bound.
  - intros v r Hb H. unfold convert_to_professional_schema in H.
    rewrite Hb in H. now apply reconstruct_main_bound in H.
  - intros d H. eexists. now apply reconstruct_legacy.
Qed.

(** An instance of C9: the reconstruction of the worked example. *)
Lemma at_most_one_main_concept_witness :
  exists n,
    main_concept_count (spec_normalize role_with_default worked_example) = Some n
    /\ n <= 1.
Proof.
  exact (proj1 (proj2 at_most_one_main_concept) (PDict worked_example) _ eq_refl).
Defined.



End Claims.

(* ================================================================== *)
(** ** Further properties of the pipeline *)
(* ================================================================== *)

Module PyStrMore.
Import PyStr PyStrFacts.

Lemma append_empty_r (s : string) : s ++ "" = s.
Proof. induction s as [|c r IH]; simpl; [reflexivity | now rewrite IH]. Qed.

Lemma lstrip_starts_nonspace (s : string) : starts_nonspace (lstrip s) = true.
Proof.
  induction s as [|c r IH]; [reflexivity|]. cbn [lstrip].
  destruct (isspace c) eqn:E; [exact IH|]. cbn. now rewrite E.
Qed.

Lemma lstrip_fixed (s : string) : starts_nonspace s = true -> lstrip s = s.
Proof.
  destruct s as [|c r]; [reflexivity|]. cbn. now destruct (isspace c).
Qed.

Lemma rstrip_starts_nonspace (s : string) :
  starts_nonspace s = true -> starts_nonspace (rstrip s) = true.
Proof.
  destruct s as [|c r]; [reflexivity|]. cbn [starts_nonspace rstrip].
  intros H. destruct (rstrip r); [|exact H].
  apply negb_true_iff in H. rewrite H. cbn. now rewrite H.
Qed.

Lemma rstrip_idempotent (s : string) : rstrip (rstrip s) = rstrip s.
Proof.
  induction s as [|c r IH]; [reflexivity|]. cbn [rstrip].
  destruct (rstrip r) as [|x y] eqn:E.
  - destruct (isspace c) eqn:Ec; [reflexivity|]. cbn. now rewrite Ec.
  - cbn [rstrip]. cbn [rstrip] in IH. now rewrite IH.
Qed.

Lemma strip_idempotent (s : string) : strip (strip s) = strip s.
Proof.
  unfold strip.
  rewrite (lstrip_fixed (rstrip (lstrip s))).
  - apply rstrip_idempotent.
  - apply rstrip_starts_nonspace, lstrip_starts_nonspace.
Qed.

Lemma lstrip_append_nonspace (a r : string) c :
  isspace c = false -> lstrip (a ++ String c r) = lstrip a ++ String c r.
Proof.
  intros H. induction a as [|x a IH]; cbn [append lstrip].
  - now rewrite H.
  - now destruct (isspace x).
Qed.

Lemma rstrip_append_nonspace (a r : string) c :
  isspace c = false -> rstrip (a ++ String c r) = a ++ String c (rstrip r).
Proof.
  intros H. induction a as [|x a IH]; cbn [append rstrip].
  - destruct (rstrip r); [now rewrite H | reflexivity].
  - rewrite IH. now destruct a.
Qed.

Lemma mem_lstrip c (s : string) : mem c (lstrip s) = true -> mem c s = true.
Proof.
  induction s as [|x r IH]; [discriminate|]. cbn [lstrip].
  destruct (isspace x); [|trivial]. intros H. cbn [mem].
  rewrite (IH H). apply orb_true_r.
Qed.

Lemma mem_rstrip c (s : string) : mem c (rstrip s) = true -> mem c s = true.
Proof.
  induction s as [|x r IH]; [discriminate|]. cbn [rstrip mem].
  destruct (rstrip r) as [|y z].
  - destruct (isspace x); [discriminate|]. cbn [mem].
    rewrite orb_false_r. intros ->. reflexivity.
  - cbn [mem] in *. intros H. apply orb_true_iff in H as [H|H].
    + now rewrite H.
    + rewrite (IH H). apply orb_true_r.
Qed.

Lemma mem_strip c (s : string) : mem c (strip s) = true -> mem c s = true.
Proof. intros H. now apply mem_lstrip, mem_rstrip. Qed.

Lemma mem_false_strip c (s : string) : mem c s = false -> mem c (strip s) = false.
Proof.
  intros H. destruct (mem c (strip s)) eqn:E; [|reflexivity].
  apply mem_strip in E. congruence.
Qed.

Lemma length_strip (s : string) : String.length (strip s) <= String.length s.
Proof.
  destruct (strip_substring s) as [pre [post E]].
  rewrite E at 2. rewrite !length_append. lia.
Qed.

Lemma contains_sub_false (sub pre s post : string) :
  contains sub (pre ++ s ++ post) = false -> contains sub s = false.
Proof.
  intros H. destruct (contains sub s) eqn:E; [|reflexivity].
  apply contains_spec in E. apply (occurs_append sub pre s post) in E.
  apply contains_spec in E. congruence.
Qed.

End PyStrMore.

Section CleanerMore.
Import PyStr PyStrFacts PyStrMore.

Lemma contains_fence_tail c (r : string) :
  contains "```" (String c r) = false -> contains "```" r = false.
Proof. cbn [contains]. intros H. now apply orb_false_iff in H. Qed.

Lemma contains_fence_head c c2 c3 (r : string) :
  contains "```" (String c (String c2 (String c3 r))) = false ->
  is_tick c && is_tick c2 && is_tick c3 = false.
Proof.
  cbn [contains]. intros H. apply orb_false_iff in H as [H _].
  cbn [startswith] in H. unfold is_tick.
  rewrite (Ascii.eqb_sym c), (Ascii.eqb_sym c2), (Ascii.eqb_sym c3).
  rewrite andb_true_r in H. now rewrite <- andb_assoc.
Qed.

Lemma sub_fence_keep c c2 c3 (r : string) :
  is_tick c && is_tick c2 && is_tick c3 = false ->
  sub_fence (String c (String c2 (String c3 r)))
  = String c (sub_fence (String c2 (String c3 r))).
Proof. intros H. cbn [sub_fence]. now rewrite H. Qed.

Lemma replace_fence_keep3 c c2 c3 (r : string) :
  is_tick c && is_tick c2 && is_tick c3 = false ->
  replace_fence (String c (String c2 (String c3 r)))
  = String c (replace_fence (String c2 (String c3 r))).
Proof. intros H. cbn [replace_fence]. now rewrite H. Qed.

(** Without a fence, both removals change nothing. *)
Lemma sub_fence_fixed (s : string) :
  contains "```" s = false -> sub_fence s = s.
Proof.
  induction s as [|c r IH]; [reflexivity|]. intros H.
  pose proof (IH (contains_fence_tail _ _ H)) as IH'.
  destruct r as [|c2 [|c3 r3]]; try reflexivity.
  rewrite (sub_fence_keep _ _ _ _ (contains_fence_head _ _ _ _ H)).
  now rewrite IH'.
Qed.

Lemma replace_fence_fixed (s : string) :
  contains "```" s = false -> replace_fence s = s.
Proof.
  induction s as [|c r IH]; [reflexivity|]. intros H.
  pose proof (IH (contains_fence_tail _ _ H)) as IH'.
  destruct r as [|c2 [|c3 r3]]; try reflexivity.
  rewrite (replace_fence_keep3 _ _ _ _ (contains_fence_head _ _ _ _ H)).
  now rewrite IH'.
Qed.

Lemma strip_fences_no_fence (s : string) :
  contains "```" s = false -> strip_fences s = strip s.
Proof.
  intros H. unfold strip_fences.
  now rewrite (sub_fence_fixed s H), (replace_fence_fixed s H).
Qed.

Lemma strip_object (pre body post : string) :
  strip (pre ++ "{" ++ body ++ "}" ++ post)
  = lstrip pre ++ "{" ++ body ++ "}" ++ rstrip post.
Proof.
  unfold strip.
  change (pre ++ "{" ++ body ++ "}" ++ post)
    with (pre ++ String "{" (body ++ "}" ++ post)).
  rewrite lstrip_append_nonspace by reflexivity.
  replace (lstrip pre ++ String "{" (body ++ "}" ++ post))
    with ((lstrip pre ++ "{" ++ body) ++ String "}" post)
    by (rewrite !append_assoc; reflexivity).
  rewrite rstrip_append_nonspace by reflexivity.
  rewrite !append_assoc. reflexivity.
Qed.

(** A JSON object wrapped in prose, in a text without fences: the object
    is what comes out. *)
Lemma safe_clean_prose (pre body post : string) :
  contains "```" (pre ++ "{" ++ body ++ "}" ++ post) = false ->
  mem "{" pre = false -> mem "}" post = false ->
  safe_clean (pre ++ "{" ++ body ++ "}" ++ post) = "{" ++ body ++ "}".
Proof.
  intros Hf Hpre Hpost.
  apply (safe_clean_object _ (lstrip pre) body (rstrip post)).
  - rewrite (strip_fences_no_fence _ Hf). apply strip_object.
  - destruct (mem "{" (lstrip pre)) eqn:E; [|reflexivity].
    apply mem_lstrip in E. congruence.
  - destruct (mem "}" (rstrip post)) eqn:E; [|reflexivity].
    apply mem_rstrip in E. congruence.
Qed.

Lemma sub_fence_length (s : string) :
  String.length (sub_fence s) <= String.length s.
Proof.
  remember (String.length s) as n eqn:Hn.
  assert (Hle : String.length s <= n) by lia.
  rewrite Hn. clear Hn. revert s Hle.
  induction n as [|n IH]; intros s Hle.
  - destruct s; [simpl; lia | simpl in Hle; lia].
  - destruct s as [|c [|c2 [|c3 r3]]]; try (simpl; lia).
    cbn [String.length] in Hle.
    destruct (is_tick c && is_tick c2 && is_tick c3) eqn:E.
    + cbn [sub_fence]. rewrite E.
      destruct r3 as [|j [|s' [|o [|n' r7]]]];
        try (match goal with
             | |- String.length (sub_fence ?x) <= _ =>
                 pose proof (IH x) as B; cbn [String.length] in *; lia
             end).
      destruct (is_json j s' o n').
      * pose proof (IH r7) as B. cbn [String.length] in *. lia.
      * pose proof (IH (String j (String s' (String o (String n' r7))))) as B.
        cbn [String.length] in *. lia.
    + rewrite (sub_fence_keep _ _ _ _ E).
      pose proof (IH (String c2 (String c3 r3))) as B.
      cbn [String.length] in *. lia.
Qed.

Lemma replace_fence_length (s : string) :
  String.length (replace_fence s) <= String.length s.
Proof.
  remember (String.length s) as n eqn:Hn.
  assert (Hle : String.length s <= n) by lia.
  rewrite Hn. clear Hn. revert s Hle.
  induction n as [|n IH]; intros s Hle.
  - destruct s; [simpl; lia | simpl in Hle; lia].
  - destruct s as [|c [|c2 [|c3 r3]]]; try (simpl; lia).
    cbn [String.length] in Hle.
    destruct (is_tick c && is_tick c2 && is_tick c3) eqn:E.
    + cbn [replace_fence]. rewrite E.
      pose proof (IH r3) as B. cbn [String.length] in *. lia.
    + rewrite (replace_fence_keep3 _ _ _ _ E).
      pose proof (IH (String c2 (String c3 r3))) as B.
      cbn [String.length] in *. lia.
Qed.

Lemma strip_fences_length (raw : string) :
  String.length (strip_fences raw) <= String.length raw.
Proof.
  unfold strip_fences.
  pose proof (length_strip (replace_fence (sub_fence raw))).
  pose proof (replace_fence_length (sub_fence raw)).
  pose proof (sub_fence_length raw). lia.
Qed.

Lemma strip_fences_trimmed (raw : string) :
  strip (strip_fences raw) = strip_fences raw.
Proof. unfold strip_fences. apply strip_idempotent. Qed.

Lemma object_trimmed (body : string) :
  strip ("{" ++ body ++ "}") = "{" ++ body ++ "}".
Proof.
  pose proof (strip_object "" body "") as H.
  cbn [lstrip rstrip] in H. rewrite !append_empty_r in H.
  cbn [append] in H. cbn [append]. exact H.
Qed.

(** X2: what [safe_clean] returns contains no fence, has no whitespace at
    either end, and is never longer than its input. *)
Theorem safe_clean_shape (raw : string) :
  contains "```" (safe_clean raw) = false
  /\ strip (safe_clean raw) = safe_clean raw
  /\ String.length (safe_clean raw) <= String.length raw.
Proof.
  pose proof (strip_fences_clean raw) as Hf.
  pose proof (strip_fences_length raw) as Hl.
  destruct (brace_cases (strip_fences raw))
    as [H | [[pre [body [post [E [Hpre Hpost]]]]] | [pre [mid [E [Hpre [Hin Hmid]]]]]]].
  - rewrite (safe_clean_no_pair raw H).
    split; [exact Hf|]. split; [apply strip_fences_trimmed | exact Hl].
  - rewrite (safe_clean_object raw pre body post E Hpre Hpost).
    assert (E' : strip_fences raw = pre ++ ("{" ++ body ++ "}") ++ post).
    { rewrite E. now rewrite !append_assoc. }
    split; [|split].
    + rewrite E' in Hf. exact (contains_sub_false _ _ _ _ Hf).
    + apply object_trimmed.
    + rewrite E' in Hl. rewrite length_append in Hl.
      rewrite (length_append ("{" ++ body ++ "}") post) in Hl. lia.
  - rewrite (safe_clean_reversed raw pre mid E Hpre Hin Hmid).
    split; [reflexivity|]. split; [reflexivity|]. simpl. lia.
Qed.

(** X1: [safe_clean] is idempotent: cleaning a cleaned text changes
    nothing. *)
Theorem safe_clean_idempotent (raw : string) :
  safe_clean (safe_clean raw) = safe_clean raw.
Proof.
  pose proof (strip_fences_clean raw) as Hf.
  destruct (brace_cases (strip_fences raw))
    as [H | [[pre [body [post [E [Hpre Hpost]]]]] | [pre [mid [E [Hpre [Hin Hmid]]]]]]].
  - rewrite (safe_clean_no_pair raw H).
    assert (F : strip_fences (strip_fences raw) = strip_fences raw).
    { rewrite (strip_fences_no_fence _ Hf). apply strip_fences_trimmed. }
    apply safe_clean_no_pair in H as H'. rewrite <- F in H.
    rewrite (safe_clean_no_pair _ H). exact F.
  - rewrite (safe_clean_object raw pre body post E Hpre Hpost).
    assert (E' : strip_fences raw = pre ++ ("{" ++ body ++ "}") ++ post).
    { rewrite E. now rewrite !append_assoc. }
    rewrite E' in Hf. apply contains_sub_false in Hf.
    pose proof (safe_clean_prose "" body "") as P.
    cbn [append] in P. cbn [append].
    apply P; [|reflexivity|reflexivity].
    cbn [append] in Hf. exact Hf.
  - rewrite (safe_clean_reversed raw pre mid E Hpre Hin Hmid). reflexivity.
Qed.

End CleanerMore.

Section SentenceFacts.
Import PyStr PyStrFacts PyStrMore.

Lemma all_chars_mem (p : ascii -> bool) (s : string) :
  all_chars p s = true <-> (forall c, mem c s = true -> p c = true).
Proof.
  induction s as [|a r IH]; cbn [all_chars mem].
  - split; [discriminate | reflexivity].
  - rewrite andb_true_iff, IH. split.
    + intros [Ha Hr] c H. apply orb_true_iff in H as [H|H].
      * apply Ascii.eqb_eq in H. now subst.
      * now apply Hr.
    + intros H. split.
      * apply H. now rewrite Ascii.eqb_refl.
      * intros c Hc. apply H. rewrite Hc. apply orb_true_r.
Qed.

Lemma all_chars_false (p : ascii -> bool) (s : string) :
  all_chars p s = false -> exists c, mem c s = true /\ p c = false.
Proof.
  induction s as [|a r IH]; cbn [all_chars mem]; [discriminate|].
  destruct (p a) eqn:E; cbn [andb].
  - intros H. destruct (IH H) as [c [Hc Hp]]. exists c.
    rewrite Hc. split; [apply orb_true_r | exact Hp].
  - intros _. exists a. now rewrite Ascii.eqb_refl.
Qed.

Lemma mem_occurs c (p s : string) :
  occurs p s -> mem c p = true -> mem c s = true.
Proof.
  intros [pre [post ->]] H. rewrite !mem_append, H.
  now rewrite orb_true_r.
Qed.

Lemma occurs_refl (s : string) : occurs s s.
Proof. exists "", "". cbn [append]. now rewrite append_empty_r. Qed.

Lemma occurs_trans (a b c : string) : occurs a b -> occurs b c -> occurs a c.
Proof. intros H [pre [post ->]]. now apply occurs_append. Qed.

Lemma occurs_cons (p : string) c (s : string) : occurs p s -> occurs p (String c s).
Proof.
  intros H. apply (occurs_trans _ s); [exact H|].
  exists (String c ""), "". cbn [append]. now rewrite append_empty_r.
Qed.

Lemma occurs_strip_self (s : string) : occurs (strip s) s.
Proof. destruct (strip_substring s) as [pre [post E]]. now exists pre, post. Qed.

(** The pieces of [re.split]: the first one is a prefix of the text. *)
Lemma re_split_head (s p : string) (ps : list string) :
  re_split false s = p :: ps -> exists post, s = p ++ post.
Proof.
  revert p ps. induction s as [|c r IH]; intros p ps H; cbn [re_split] in H.
  - injection H as <- _. now exists "".
  - cbn [andb] in H. destruct (is_delim c).
    + injection H as <- _. now exists (String c r).
    + destruct (re_split false r) as [|p' ps'] eqn:E.
      * injection H as <- _. now exists r.
      * injection H as <- _. destruct (IH _ _ eq_refl) as [post ->].
        now exists post.
Qed.

Lemma re_split_occurs (b : bool) (s : string) :
  Forall (fun p => occurs p s) (re_split b s).
Proof.
  revert b. induction s as [|c r IH]; intros b; cbn [re_split].
  - constructor; [apply occurs_refl | constructor].
  - assert (T : forall b', Forall (fun p => occurs p (String c r)) (re_split b' r)).
    { intros b'. eapply Forall_impl; [|apply IH]. intros p. apply occurs_cons. }
    destruct (b && isspace c); [apply T|].
    destruct (is_delim c).
    + constructor; [|apply T]. now exists "", (String c r).
    + destruct (re_split false r) as [|p ps] eqn:E.
      * constructor; [|constructor]. exists "", r. reflexivity.
      * pose proof (T false) as Tf. rewrite E in Tf.
        constructor; [|now inversion Tf].
        destruct (re_split_head _ _ _ E) as [post ->].
        exists "", post. reflexivity.
Qed.

Lemma re_split_no_delim (b : bool) (s : string) :
  Forall (fun p => forall c, mem c p = true -> is_delim c = false) (re_split b s).
Proof.
  revert b. induction s as [|c r IH]; intros b; cbn [re_split].
  - constructor; [discriminate | constructor].
  - destruct (b && isspace c); [apply IH|].
    destruct (is_delim c) eqn:D.
    + constructor; [discriminate | apply IH].
    + pose proof (IH false) as Tf.
      destruct (re_split false r) as [|p ps].
      * constructor; [|constructor]. intros x. cbn [mem].
        rewrite orb_false_r. intros H. apply Ascii.eqb_eq in H. now subst.
      * inversion Tf as [|? ? Hp Hps]. subst. constructor; [|exact Hps].
        intros x. cbn [mem]. intros H. apply orb_true_iff in H as [H|H].
        -- apply Ascii.eqb_eq in H. now subst.
        -- now apply Hp.
Qed.

(** A character that is neither a delimiter nor whitespace lands in a
    piece. *)
Lemma re_split_covers (b : bool) (s : string) c :
  mem c s = true -> is_delim c = false -> isspace c = false ->
  exists p, In p (re_split b s) /\ mem c p = true.
Proof.
  intros Hm Hd Hs. revert b. induction s as [|a r IH]; intros b;
    [discriminate|].
  cbn [mem] in Hm. cbn [re_split].
  destruct (Ascii.eqb_spec a c) as [->|Hne].
  - rewrite Hs, andb_false_r, Hd.
    destruct (re_split false r) as [|p ps].
    + exists (String c ""). split; [now left|]. cbn. now rewrite Ascii.eqb_refl.
    + exists (String c p). split; [now left|]. cbn. now rewrite Ascii.eqb_refl.
  - cbn [orb] in Hm. specialize (IH Hm).
    destruct (b && isspace a).
    + apply IH.
    + destruct (is_delim a).
      * destruct (IH true) as [p [Hin Hp]]. exists p. split; [now right | exact Hp].
      * destruct (IH false) as [p [Hin Hp]].
        destruct (re_split false r) as [|p0 ps]; [destruct Hin|].
        destruct Hin as [<-|Hin].
        -- exists (String a p0). split; [now left|]. cbn [mem].
           rewrite Hp. apply orb_true_r.
        -- exists p. split; [now right | exact Hp].
Qed.

Lemma mem_lstrip_keep c (s : string) :
  mem c s = true -> isspace c = false -> mem c (lstrip s) = true.
Proof.
  intros Hm Hs. induction s as [|a r IH]; [discriminate|].
  cbn [lstrip]. destruct (isspace a) eqn:E; [|exact Hm].
  cbn [mem] in Hm. apply orb_true_iff in Hm as [H|H]; [|now apply IH].
  apply Ascii.eqb_eq in H. subst. congruence.
Qed.

Lemma mem_rstrip_keep c (s : string) :
  mem c s = true -> isspace c = false -> mem c (rstrip s) = true.
Proof.
  intros Hm Hs. induction s as [|a r IH]; [discriminate|].
  cbn [mem] in Hm. cbn [rstrip].
  destruct (mem c r) eqn:Hr.
  - specialize (IH eq_refl). destruct (rstrip r) as [|y z]; [discriminate|].
    cbn [mem] in *. rewrite IH. apply orb_true_r.
  - rewrite orb_false_r in Hm. apply Ascii.eqb_eq in Hm. subst a.
    destruct (rstrip r); [rewrite Hs|]; cbn [mem]; now rewrite Ascii.eqb_refl.
Qed.

Lemma mem_strip_keep c (s : string) :
  mem c s = true -> isspace c = false -> mem c (strip s) = true.
Proof.
  intros Hm Hs. unfold strip.
  apply mem_rstrip_keep; [|exact Hs]. now apply mem_lstrip_keep.
Qed.

Lemma lstrip_blank (s : string) :
  all_chars isspace s = true -> lstrip s = "".
Proof.
  induction s as [|a r IH]; [reflexivity|]. cbn [all_chars lstrip].
  intros H. apply andb_true_iff in H as [Ha Hr]. now rewrite Ha, IH.
Qed.

Lemma strip_blank (s : string) : all_chars isspace s = true -> strip s = "".
Proof. intros H. unfold strip. now rewrite lstrip_blank. Qed.

Lemma In_split_sentences (user_text s : string) :
  In s (split_sentences user_text) <->
  s <> "" /\ exists p, In p (re_split false user_text) /\ s = strip p.
Proof.
  unfold split_sentences. rewrite filter_In, in_map_iff. split.
  - intros [[p [<- Hin]] Hn]. split; [|now exists p].
    intros E. rewrite E in Hn. discriminate.
  - intros [Hn [p [Hin ->]]]. split; [now exists p|].
    destruct (strip p); [congruence | reflexivity].
Qed.

End SentenceFacts.

Section FallbackMore.
Import PyStr PyStrFacts PyStrMore.




Lemma lower_upper_char (c : ascii) : lower_char (upper_char c) = lower_char c.
Proof. destruct c as [[] [] [] [] [] [] [] []]; reflexivity. Qed.

Lemma lower_lower_char (c : ascii) : lower_char (lower_char c) = lower_char c.
Proof. destruct c as [[] [] [] [] [] [] [] []]; reflexivity. Qed.


Lemma lower_upper (s : string) : lower (upper s) = lower s.
Proof.
  induction s as [|c r IH]; [reflexivity|]. cbn [lower upper map_chars] in *.
  now rewrite lower_upper_char, IH.
Qed.

Lemma lower_lower (s : string) : lower (lower s) = lower s.
Proof.
  induction s as [|c r IH]; [reflexivity|]. cbn [lower map_chars] in *.
  now rewrite lower_lower_char, IH.
Qed.

Lemma fallback_layout_lower_eq (s t : string) :
  lower s = lower t -> fallback_layout s = fallback_layout t.
Proof. intros H. unfold fallback_layout, any_word_in. now rewrite H. Qed.

Lemma sections_of_fallback (user_text : string) :
  sections_of (fallback_from_text user_text)
  = fallback_sections (fallback_layout user_text)
      (split_sentences user_text) user_text.
Proof. reflexivity. Qed.


End FallbackMore.

Section ExtraFallback.
Import PyStr PyStrFacts PyStrMore.

(** X3: in a text without fences, a JSON object wrapped in prose is
    extracted exactly: when no [{] stands before the object and no [}]
    after it, the result is the object, whatever surrounds it. *)
Theorem safe_clean_unwraps_prose :
  forall pre body post : string,
    contains "```" (pre ++ "{" ++ body ++ "}" ++ post) = false ->
    mem "{" pre = false -> mem "}" post = false ->
    safe_clean (pre ++ "{" ++ body ++ "}" ++ post) = "{" ++ body ++ "}".
Proof. exact safe_clean_prose. Qed.

(** An instance of X3. *)
Lemma safe_clean_unwraps_prose_witness :
  safe_clean ("Here you go: " ++ "{" ++ "x: {y}" ++ "}" ++ " Enjoy!")
  = "{" ++ "x: {y}" ++ "}".
Proof.
  exact (safe_clean_unwraps_prose "Here you go: " "x: {y}" " Enjoy!"
           eq_refl eq_refl eq_refl).
Defined.

(** X4: every sentence the fallback generator works with is non-empty,
    has no whitespace at either end, contains none of the delimiters
    [.], [!], [?], line feed, and occurs in the input as it stands. *)
Theorem split_sentences_invariant :
  forall user_text s : string,
    In s (split_sentences user_text) ->
    s <> ""
    /\ strip s = s
    /\ (forall c, mem c s = true -> is_delim c = false)
    /\ occurs s user_text.
Proof.
  intros user_text s H. apply In_split_sentences in H as [Hn [p [Hin ->]]].
  split; [exact Hn|]. split; [apply strip_idempotent|]. split.
  - intros c Hc. apply mem_strip in Hc.
    pose proof (re_split_no_delim false user_text) as F.
    rewrite Forall_forall in F. now apply (F p Hin).
  - pose proof (re_split_occurs false user_text) as F.
    rewrite Forall_forall in F.
    exact (occurs_trans _ _ _ (occurs_strip_self p) (F p Hin)).
Qed.

(** An instance of X4. *)
Lemma split_sentences_invariant_witness :
  "X is fast" <> ""
  /\ strip "X is fast" = "X is fast"
  /\ (forall c, mem c "X is fast" = true -> is_delim c = false)
  /\ occurs "X is fast" "Compare X and Y.  X is fast! Y is cheap.".
Proof.
  apply (split_sentences_invariant "Compare X and Y.  X is fast! Y is cheap.").
  right. left. reflexivity.
Defined.

Lemma no_sentences_iff :
  forall user_text : string,
    split_sentences user_text = [] <->
    all_chars (fun c => is_delim c || isspace c) user_text = true.
Proof.
  intros user_text. split.
  - intros H.
    destruct (all_chars _ user_text) eqn:E; [reflexivity|]. exfalso.
    apply all_chars_false in E as [c [Hc Hp]].
    apply orb_false_iff in Hp as [Hd Hs].
    destruct (re_split_covers false user_text c Hc Hd Hs) as [p [Hin Hp]].
    assert (Hin' : In (strip p) (split_sentences user_text)).
    { apply In_split_sentences. split; [|now exists p].
      intros E. pose proof (mem_strip_keep c p Hp Hs) as M.
      rewrite E in M. discriminate. }
    rewrite H in Hin'. destruct Hin'.
  - intros H. destruct (split_sentences user_text) as [|s l] eqn:E;
      [reflexivity|]. exfalso.
    assert (Hin : In s (split_sentences user_text)) by (rewrite E; now left).
    apply In_split_sentences in Hin as [Hn [p [Hin ->]]].
    apply Hn. apply strip_blank. apply all_chars_mem. intros c Hc.
    pose proof (re_split_occurs false user_text) as F.
    rewrite Forall_forall in F.
    pose proof (mem_occurs c p user_text (F p Hin) Hc) as Hu.
    rewrite all_chars_mem in H. specialize (H c Hu).
    pose proof (re_split_no_delim false user_text) as G.
    rewrite Forall_forall in G. rewrite (G p Hin c Hc) in H. exact H.
Qed.


(** X6: the fallback result has as many sections as the input has
    sentences, but at least one and at most five. *)
Theorem fallback_section_count :
  forall user_text : string,
    List.length (sections_of (fallback_from_text user_text))
    = Nat.max 1 (Nat.min 5 (List.length (split_sentences user_text))).
Proof.
  intros user_text. rewrite sections_of_fallback. unfold fallback_sections.
  destruct (split_sentences user_text) as [|s0 rest]; [reflexivity|].
  cbn [List.length]. rewrite supporting_sections_length, length_firstn. lia.
Qed.


(** X8: the fallback result's sections take their colours from the
    palette in order, starting at blue: the colours of one result are
    pairwise different, and the sixth palette entry is never used. *)
Theorem fallback_colours :
  forall user_text : string,
    exists n,
      1 <= n <= 5
      /\ map (field "color") (sections_of (fallback_from_text user_text))
         = map (fun c => Some (PStr c)) (firstn n colors).
Proof.
  intros user_text. rewrite sections_of_fallback. unfold fallback_sections.
  destruct (split_sentences user_text) as [|s0 rest].
  - exists 1. split; [lia | reflexivity].
  - destruct rest as [|a [|b [|c [|d e]]]].
    + exists 1. split; [lia | reflexivity].
    + exists 2. split; [lia | reflexivity].
    + exists 3. split; [lia | reflexivity].
    + exists 4. split; [lia | reflexivity].
    + exists 5. split; [lia | reflexivity].
Qed.

Lemma supporting_sections_valid layout i rest :
  i + List.length rest <= 5 ->
  forallb valid_section (supporting_sections layout i rest) = true.
Proof.
  revert i; induction rest as [|x rest IH]; intros i H; [reflexivity|].
  cbn [supporting_sections forallb List.length] in *.
  rewrite IH by lia. rewrite andb_true_r.
  assert (Hi : i = 0 \/ i = 1 \/ i = 2 \/ i = 3 \/ i = 4) by lia.
  destruct (String.eqb layout "process_flow");
    destruct Hi as [->|[->|[->|[->| ->]]]]; reflexivity.
Qed.

(** X9: every section of a fallback result is a section of the target
    schema: role, colour, emphasis and visual weight are values of their
    enums and the text is a str. *)
Theorem fallback_sections_valid :
  forall user_text : string,
    forallb valid_section (sections_of (fallback_from_text user_text)) = true.
Proof.
  intros user_text. rewrite sections_of_fallback. unfold fallback_sections.
  destruct (split_sentences user_text) as [|s0 rest].
  - destruct (nonempty user_text); reflexivity.
  - cbn [forallb]. rewrite supporting_sections_valid; [reflexivity|].
    rewrite length_firstn. lia.
Qed.

(** X10: the letter case of the input does not matter to the layout:
    the input in capitals, or in small letters, gets the layout of the
    input as typed. *)
Theorem fallback_layout_ignores_case :
  forall user_text : string,
    field "layout" (fallback_from_text (upper user_text))
    = field "layout" (fallback_from_text user_text)
    /\ field "layout" (fallback_from_text (lower user_text))
       = field "layout" (fallback_from_text user_text).
Proof.
  intros user_text. rewrite !fallback_layout_field. split; f_equal; f_equal.
  - apply fallback_layout_lower_eq, lower_upper.
  - apply fallback_layout_lower_eq, lower_lower.
Qed.

End ExtraFallback.

Section ExtraFallbackEdges.
Import PyStr PyStrFacts PyStrMore.


(** X11: an input without sentences (delimiters and whitespace only)
    gives exactly one section, the main concept, whose text is the first
    120 characters of the raw input, or the fixed message when the input
    is empty. *)
Theorem fallback_without_sentences :
  forall user_text : string,
    all_chars (fun c => is_delim c || isspace c) user_text = true ->
    sections_of (fallback_from_text user_text)
    = [new_section "main_concept"
         (PStr (if nonempty user_text then take 120 user_text
                else "No meaningful content found."))
         (PStr "blue") "primary" "heavy"].
Proof.
  intros user_text H. rewrite sections_of_fallback.
  apply no_sentences_iff in H. now rewrite H.
Qed.

(** An instance of X11. *)
Lemma fallback_without_sentences_witness :
  sections_of (fallback_from_text "?!")
  = [new_section "main_concept" (PStr "?!") (PStr "blue") "primary" "heavy"].
Proof. exact (fallback_without_sentences "?!" eq_refl). Defined.



End ExtraFallbackEdges.

Section NormalizerMore.

Lemma reconstruct_inv (v r : pyval) :
  reconstruct v = Ok r ->
  exists d items types layout flow new,
    v = PDict d
    /\ py_iter (or_default (dict_get "sections" d) (PList [])) = Ok items
    /\ map_enum (fun _ section => py_get section "type" (PStr "")) 0 items = Ok types
    /\ infer_layout types (List.length items) = Ok (layout, flow)
    /\ map_enum convert_section 0 items = Ok new
    /\ r = PDict (infographic
                    (or_default (dict_get "title" d) (PStr "PROFESSIONAL INFOGRAPHIC"))
                    layout flow new).
Proof.
  unfold reconstruct. intros H.
  destruct v; try discriminate. cbn [py_get bind] in H.
  change (match dict_get "sections" d with Some x => x | None => PList [] end)
    with (or_default (dict_get "sections" d) (PList [])) in H.
  destruct (py_iter _) as [items|] eqn:Ei; [|discriminate]. cbn [bind] in H.
  destruct (map_enum _ 0 items) as [types|] eqn:Et; [|discriminate].
  cbn [bind] in H.
  destruct (infer_layout types _) as [[layout flow]|] eqn:El; [|discriminate].
  cbn [bind] in H.
  destruct (map_enum convert_section 0 items) as [new|] eqn:En; [|discriminate].
  injection H as <-.
  exists d, items, types, layout, flow, new. repeat split; assumption.
Qed.

Lemma infer_layout_inv types n layout flow :
  infer_layout types n = Ok (layout, flow) ->
  (layout = "process_flow" /\ flow = "left_to_right" /\ n <= 4)
  \/ (layout = "process_flow" /\ flow = "top_to_bottom")
  \/ (layout = "concept_map" /\ flow = "top_to_bottom")
  \/ (layout = "hierarchy" /\ flow = "top_to_bottom" /\ 4 < n).
Proof.
  unfold infer_layout. destruct (existsb _ types).
  - destruct (Nat.leb_spec n 4) as [L|L]; intros E; injection E as <- <-; auto.
  - destruct (py_any _ types) as [[]|]; cbn [bind]; try discriminate.
    + intros E; injection E as <- <-; auto.
    + destruct (Nat.ltb_spec 4 n) as [L|L]; intros E; injection E as <- <-;
        auto 6.
Qed.

Lemma convert_section_inv (i : nat) (section out : pyval) :
  convert_section i section = Ok out ->
  copied section out /\ converted_style out.
Proof.
  unfold convert_section. destruct section; try discriminate.
  cbn [py_get bind].
  set (text := match dict_get "text" d with Some x => x | None => PStr "" end).
  set (color := match dict_get "color" d with Some x => x | None => PStr "blue" end).
  assert (C : forall role emphasis weight,
             copied (PDict d) (new_section role text color emphasis weight)).
  { intros. split; reflexivity. }
  assert (S : forall role emphasis weight,
             In (role, emphasis, weight) converted_styles ->
             converted_style (new_section role text color emphasis weight)).
  { intros role emphasis weight Hin. exists role, emphasis, weight.
    repeat split; try reflexivity. exact Hin. }
  destruct (_ && _);
    [|destruct (py_eq_str _ "arrow" || _);
      [|destruct (py_eq_str _ "process" || _)]];
    intros H; injection H as <-; (split; [apply C | apply S]);
    cbn; auto.
Qed.

Lemma new_sections_inv (items new : list pyval) (i : nat) :
  map_enum convert_section i items = Ok new ->
  Forall2 copied items new /\ Forall converted_style new.
Proof.
  revert i new; induction items as [|s items IH]; intros i new H.
  - injection H as <-. split; constructor.
  - cbn [map_enum] in H.
    destruct (convert_section i s) as [y|] eqn:Ey; [|discriminate].
    cbn [bind] in H.
    destruct (map_enum convert_section (S i) items) as [ys|] eqn:Eys;
      [|discriminate].
    injection H as <-. destruct (IH _ _ Eys) as [F2 F].
    destruct (convert_section_inv _ _ _ Ey) as [C S].
    split; constructor; assumption.
Qed.

End NormalizerMore.

Section ExtraNormalizer.

(** X13: the normalizer is idempotent wherever it returns: normalizing
    its own output gives that output back. *)
Theorem convert_idempotent :
  forall v r : pyval,
    convert_to_professional_schema v = Ok r ->
    convert_to_professional_schema r = Ok r.
Proof.
  intros v r H. unfold convert_to_professional_schema in H.
  destruct (already_professional v) as [[]|] eqn:E; cbn [bind] in H;
    try discriminate.
  - injection H as <-. unfold convert_to_professional_schema. now rewrite E.
  - apply reconstruct_inv in H
      as [d [items [types [layout [flow [new [_ [_ [_ [_ [_ ->]]]]]]]]]]].
    reflexivity.
Qed.

(** An instance of X13: the reconstruction of the worked example. *)
Lemma convert_idempotent_witness :
  convert_to_professional_schema (spec_normalize role_with_default worked_example)
  = Ok (spec_normalize role_with_default worked_example).
Proof. exact (convert_idempotent (PDict worked_example) _ eq_refl). Defined.

(** X14: the reconstruction keeps the sections: as many as in the input,
    in the same order, each with the text and colour of its legacy
    section (the empty text and blue when absent); the title is the
    input's, or the placeholder. *)
Theorem reconstruct_copies_sections :
  forall (d : dict) (secs : list pyval) (r : pyval),
    dict_get "sections" d = Some (PList secs) ->
    reconstruct (PDict d) = Ok r ->
    Forall2 copied secs (sections_of r)
    /\ field "title" r
       = Some (or_default (dict_get "title" d) (PStr "PROFESSIONAL INFOGRAPHIC")).
Proof.
  intros d secs r Hs H.
  apply reconstruct_inv in H
    as [d' [items [types [layout [flow [new [Ed [Ei [_ [_ [En ->]]]]]]]]]]].
  injection Ed as <-. rewrite Hs in Ei. cbn in Ei. injection Ei as <-.
  split; [|reflexivity]. exact (proj1 (new_sections_inv _ _ _ En)).
Qed.

(** An instance of X14. *)
Lemma reconstruct_copies_sections_witness :
  Forall2 copied
    [PDict [("type", PStr "box"); ("text", PStr "A")];
     PDict [("type", PStr "arrow"); ("text", PStr "->")];
     PDict [("type", PStr "list"); ("text", PStr "B")]]
    (sections_of (spec_normalize role_with_default worked_example))
  /\ field "title" (spec_normalize role_with_default worked_example)
     = Some (or_default (dict_get "title" worked_example)
               (PStr "PROFESSIONAL INFOGRAPHIC")).
Proof. exact (reconstruct_copies_sections worked_example _ _ eq_refl eq_refl). Defined.

(** X15: what the reconstruction can produce. The layout is process_flow,
    concept_map or hierarchy, never comparison; the visual_flow is
    top_to_bottom or left_to_right; left_to_right comes only with
    process_flow and at most 4 sections, hierarchy only with more than 4;
    and every section has one of four role/emphasis/weight combinations,
    so the role conclusion never appears. *)
Theorem reconstruct_range :
  forall v r : pyval,
    reconstruct v = Ok r ->
    exists layout flow,
      field "layout" r = Some (PStr layout)
      /\ field "visual_flow" r = Some (PStr flow)
      /\ In layout ["process_flow"; "concept_map"; "hierarchy"]
      /\ In flow ["top_to_bottom"; "left_to_right"]
      /\ (flow = "left_to_right" ->
          layout = "process_flow" /\ List.length (sections_of r) <= 4)
      /\ (layout = "hierarchy" -> 4 < List.length (sections_of r))
      /\ Forall converted_style (sections_of r).
Proof.
  intros v r H.
  apply reconstruct_inv in H
    as [d [items [types [layout [flow [new [_ [_ [_ [El [En ->]]]]]]]]]]].
  destruct (new_sections_inv _ _ _ En) as [F2 F].
  apply Forall2_length in F2.
  exists layout, flow. split; [reflexivity|]. split; [reflexivity|].
  change (sections_of (PDict (infographic _ layout flow new))) with new.
  rewrite <- F2.
  apply infer_layout_inv in El
    as [[-> [-> Hn]] | [[-> ->] | [[-> ->] | [-> [-> Hn]]]]];
    cbn [In]; repeat split; auto; try discriminate; try (intros _; lia).
Qed.

(** An instance of X15. *)
Lemma reconstruct_range_witness :
  exists layout flow,
    field "layout" (spec_normalize role_with_default worked_example)
    = Some (PStr layout)
    /\ field "visual_flow" (spec_normalize role_with_default worked_example)
       = Some (PStr flow)
    /\ In layout ["process_flow"; "concept_map"; "hierarchy"]
    /\ In flow ["top_to_bottom"; "left_to_right"]
    /\ (flow = "left_to_right" ->
        layout = "process_flow"
        /\ List.length (sections_of (spec_normalize role_with_default worked_example)) <= 4)
    /\ (layout = "hierarchy" ->
        4 < List.length (sections_of (spec_normalize role_with_default worked_example)))
    /\ Forall converted_style
         (sections_of (spec_normalize role_with_default worked_example)).
Proof. exact (reconstruct_range (PDict worked_example) _ eq_refl). Defined.

(** X16: a reconstruction conforms to the promised shape as soon as the
    input has a non-empty str title and at least one section. *)
Theorem reconstruct_conforms :
  forall (d : dict) (title : string) (s : pyval) (rest : list pyval) (r : pyval),
    dict_get "title" d = Some (PStr title) -> title <> "" ->
    dict_get "sections" d = Some (PList (s :: rest)) ->
    reconstruct (PDict d) = Ok r ->
    conforms r = true.
Proof.
  intros d title s rest r Ht Hne Hs H.
  apply reconstruct_inv in H
    as [d' [items [types [layout [flow [new [Ed [Ei [_ [El [En ->]]]]]]]]]]].
  injection Ed as <-. rewrite Hs in Ei. cbn in Ei. injection Ei as <-.
  destruct (new_sections_inv _ _ _ En) as [F2 _].
  apply Forall2_length in F2. rewrite Ht. cbn [or_default].
  destruct new as [|y ys]; [discriminate|].
  destruct title as [|c t]; [congruence|].
  apply infer_layout_inv in El
    as [[-> [-> Hn]] | [[-> ->] | [[-> ->] | [-> [-> Hn]]]]]; reflexivity.
Qed.

(** An instance of X16. *)
Lemma reconstruct_conforms_witness :
  conforms (spec_normalize role_with_default worked_example) = true.
Proof.
  refine (reconstruct_conforms worked_example "T" _ _ _ eq_refl _ eq_refl eq_refl).
  discriminate.
Defined.

End ExtraNormalizer.

Section OrchestratorMore.
Import PyStr PyStrFacts PyStrMore.

Variable env : environment.

Lemma mbind_lift_ok {A B : Type} (a : A) (k : A -> M B) :
  mbind (lift (Ok a)) k = k a.
Proof. unfold mbind, lift. now destruct (k a). Qed.

Lemma try_except_ok {A : Type} (m : M A) (h : exn -> M A) (a : A) :
  fst m = Ok a -> try_except m h = m.
Proof. destruct m as [[x|e] t]; [reflexivity | discriminate]. Qed.

Lemma fst_after_validation (user_text : string) :
  exists r, fst (after_validation env user_text) = Ok r.
Proof.
  unfold after_validation. rewrite fst_mbind.
  destruct (client env) as [c|].
  - rewrite fst_api_attempt.
    destruct (fst (api_body env c user_text)); cbn [bind fst ret]; eauto.
    rewrite fst_mbind. cbn. eauto.
  - cbn [ret fst bind]. rewrite fst_mbind. cbn. eauto.
Qed.

Lemma generate_valid_text (d : dict) (text : string) :
  dict_get "text" d = Some (PStr text) -> strip text <> "" ->
  generate env (Ok (PDict d)) = after_validation env (strip text).
Proof.
  intros Hd Hs. destruct (fst_after_validation (strip text)) as [r Hr].
  unfold generate. rewrite (try_except_ok _ _ r); unfold generate_body;
    rewrite mbind_lift_ok;
    (destruct d as [|kv d']; [discriminate|]); cbn [truthy negb];
    cbn [py_get]; rewrite Hd, mbind_lift_ok; cbn [py_strip];
    rewrite mbind_lift_ok;
    (destruct (strip text) as [|a u] eqn:E; [congruence|]);
    cbn [nonempty negb]; [reflexivity | exact Hr].
Qed.

Lemma generate_blank_text (d : dict) (text : string) :
  dict_get "text" d = Some (PStr text) -> strip text = "" ->
  generate env (Ok (PDict d)) = (Ok input_error_result, []).
Proof.
  intros Hd Hs. unfold generate, generate_body. rewrite mbind_lift_ok.
  destruct d as [|kv d']; [discriminate|]. cbn [truthy negb py_get].
  rewrite Hd, mbind_lift_ok. cbn [py_strip]. rewrite mbind_lift_ok, Hs.
  reflexivity.
Qed.

Lemma generate_falsy_body (data : pyval) :
  truthy data = false -> generate env (Ok data) = (Ok no_data_result, []).
Proof.
  intros H. unfold generate, generate_body. rewrite mbind_lift_ok, H.
  reflexivity.
Qed.

Lemma generate_no_text (d : dict) :
  d <> [] -> dict_get "text" d = None ->
  generate env (Ok (PDict d)) = (Ok input_error_result, []).
Proof.
  intros Hd H. unfold generate, generate_body. rewrite mbind_lift_ok.
  destruct d as [|kv d']; [congruence|]. cbn [truthy negb py_get].
  rewrite H, mbind_lift_ok. reflexivity.
Qed.

Lemma generate_bad_body (data : pyval) :
  truthy data = true -> is_object data = false ->
  generate env (Ok data) = (Ok system_error_result, []).
Proof.
  intros Ht Ho. unfold generate, generate_body.
  rewrite mbind_lift_ok, Ht. destruct data; try discriminate; reflexivity.
Qed.

Lemma generate_bad_text (d : dict) (v : pyval) :
  dict_get "text" d = Some v -> is_str v = false ->
  generate env (Ok (PDict d)) = (Ok system_error_result, [LogRaw "FATAL_ERROR"]).
Proof.
  intros Hd Hv. unfold generate, generate_body, fatal_log.
  rewrite mbind_lift_ok. destruct d as [|kv d']; [discriminate|].
  cbn [truthy negb py_get]. rewrite Hd, mbind_lift_ok.
  destruct v; try discriminate; reflexivity.
Qed.





End OrchestratorMore.

Section ExtraOrchestrator.
Import PyStr PyStrFacts PyStrMore.

(** X17: a request without a usable text is turned away before anything
    else happens, with no remote call and no log write: a falsy JSON body
    ([null], [false], [0], an empty str, list or object) gets the no-data
    result, and a non-empty object without a [text] key gets the
    input-error result, like an empty text. *)
Theorem generate_request_without_text :
  forall env : environment,
    (forall data,
       truthy data = false ->
       generate env (Ok data) = (Ok no_data_result, []))
    /\ (forall d,
          d <> [] -> dict_get "text" d = None ->
          generate env (Ok (PDict d)) = (Ok input_error_result, [])).
Proof.
  intros env. split.
  - intros data H. now apply generate_falsy_body.
  - intros d Hd H. now apply generate_no_text.
Qed.

(** Instances of X17: the empty object, and an object with another key. *)
Lemma generate_request_without_text_witness :
  generate unvalidated_env (Ok (PDict [])) = (Ok no_data_result, [])
  /\ generate unvalidated_env (Ok (PDict [("prompt", PStr "make tea")]))
     = (Ok input_error_result, []).
Proof.
  destruct (generate_request_without_text unvalidated_env) as [Hf Hn]. split.
  - exact (Hf (PDict []) eq_refl).
  - refine (Hn [("prompt", PStr "make tea")] _ eq_refl). discriminate.
Defined.

(** X18: a malformed request ends in the system-error result and never
    reaches the remote service. That happens when reading the body
    raises, when the body is truthy but not an object, and when [text] is
    not a str; only in the last case, where the text can be read again,
    the failure is logged as FATAL_ERROR. *)
Theorem generate_malformed_request :
  forall env : environment,
    (forall e, generate env (Raise e) = (Ok system_error_result, []))
    /\ (forall data,
          truthy data = true -> is_object data = false ->
          generate env (Ok data) = (Ok system_error_result, []))
    /\ (forall d v,
          dict_get "text" d = Some v -> is_str v = false ->
          generate env (Ok (PDict d))
          = (Ok system_error_result, [LogRaw "FATAL_ERROR"])).
Proof.
  intros env. split; [reflexivity|]. split.
  - intros data Ht Ho. now apply generate_bad_body.
  - intros d v Hd Hv. now apply (generate_bad_text env d v).
Qed.

(** Instances of X18: a list as body, and a number as text. *)
Lemma generate_malformed_request_witness :
  generate offline_env (Ok (PList [PStr "make tea"]))
  = (Ok system_error_result, [])
  /\ generate offline_env (Ok (PDict [("text", PInt 7)]))
     = (Ok system_error_result, [LogRaw "FATAL_ERROR"]).
Proof.
  destruct (generate_malformed_request offline_env) as [_ [Hb Ht]]. split.
  - exact (Hb (PList [PStr "make tea"]) eq_refl eq_refl).
  - exact (Ht [("text", PInt 7)] (PInt 7) eq_refl eq_refl).
Defined.

(** X19: only the [text] of the body counts, and only up to surrounding
    whitespace: a body with further keys, or with blanks around the text,
    is answered exactly like the body that has the trimmed text alone,
    effects included. *)
Theorem generate_reads_trimmed_text :
  forall (env : environment) (d : dict) (text : string),
    dict_get "text" d = Some (PStr text) ->
    generate env (Ok (PDict d)) = generate env (post (strip text)).
Proof.
  intros env d text Hd. unfold post.
  destruct (string_dec (strip text) "") as [E|Hs].
  - rewrite (generate_blank_text env d text Hd E). symmetry.
    apply (generate_blank_text env [("text", PStr (strip text))] (strip text)
             eq_refl).
    now rewrite strip_idempotent.
  - rewrite (generate_valid_text env d text Hd Hs). symmetry.
    rewrite (generate_valid_text env [("text", PStr (strip text))]
               (strip text) eq_refl);
      rewrite strip_idempotent; [reflexivity | exact Hs].
Qed.

(** An instance of X19. *)
Lemma generate_reads_trimmed_text_witness :
  generate failing_env
    (Ok (PDict [("lang", PStr "en"); ("text", PStr "  make tea  ")]))
  = generate failing_env (post (strip "  make tea  ")).
Proof.
  exact (generate_reads_trimmed_text failing_env
           [("lang", PStr "en"); ("text", PStr "  make tea  ")]
           "  make tea  " eq_refl).
Defined.



End ExtraOrchestrator.

Section ExtraPaths.
Import PyStr PyStrFacts PyStrMore.








End ExtraPaths.

Section ExtraLog.
Import PyStr PyStrFacts PyStrMore.

Variable env : environment.



End ExtraLog.

Section ExtraLogTheorem.
Import PyStr PyStrFacts PyStrMore.



End ExtraLogTheorem.
